(** * KonomiTV capture compositor

    A shallow embedding of [client/src/workers/CaptureCompositor.ts]: the Web
    Worker that draws a captured video frame, the optional superimpose and
    caption bitmaps and the comment overlay onto an OffscreenCanvas, encodes
    the canvas as JPEG and splices an EXIF block into the result.

    The worker is written against browser and library interfaces (the Canvas
    API, [piexifjs], [dayjs], [JSON.stringify]).  Calls into them are kept as
    calls: a canvas is the list of drawing commands issued on it, and the
    encoders are fields of the [Platform] class.  Everything the worker itself
    decides (which paths run, in which order, what they write into the shared
    EXIF record, what they draw, what goes into which EXIF tag) is modelled
    as the source has it. *)

From Stdlib Require Import ZArith List String Ascii Bool Lia DecimalString.
From Stdlib Require Import Floats.PrimFloat.
From stdpp Require Import base option list gmap.
Import ListNotations.

#[local] Set Warnings "-inexact-float".
#[local] Open Scope Z_scope.

(** ** JavaScript values *)

(** A JS [number] is an IEEE 754 binary64 value. *)
Definition number := float.

Fixpoint number_of_pos (p : positive) : number :=
  match p with
  | xH => 1%float
  | xO q => (2 * number_of_pos q)%float
  | xI q => (2 * number_of_pos q + 1)%float
  end.

(** The value of an integer attribute ([canvas.width], an [unsigned long])
    read as a JS number. *)
Definition number_of_Z (z : Z) : number :=
  match z with
  | Z0 => 0%float
  | Zpos p => number_of_pos p
  | Zneg p => (- number_of_pos p)%float
  end.

(** A JS string is a sequence of UTF-16 code units. *)
Definition jsstring := list Z.

(** A string literal of the source (ASCII only). *)
Definition lit (s : string) : jsstring :=
  map (fun a => Z.of_N (N_of_ascii a)) (list_ascii_of_string s).

(** ** The interfaces of the source *)

Module Comment.
(** An element of [ICaptureCommentData.comments]. *)
Record t := mk {
  top : number;
  left : number;
  color : jsstring;
  font_size : number;
  text : jsstring;
}.
End Comment.

Record ICaptureCommentData := {
  container_width : number;
  container_height : number;
  opacity : number;
  comments : list Comment.t;
}.

Record ICaptureExifData := {
  captured_at : jsstring;
  captured_playback_position : number;
  network_id : number;
  service_id : number;
  event_id : number;
  title : jsstring;
  description : jsstring;
  start_time : jsstring;
  end_time : jsstring;
  duration : number;
  caption_text : option jsstring;
  is_caption_composited : bool;
  is_comment_composited : bool;
}.

Inductive Mode := VideoOnly | CompositingCaption | Both.

(** [a === b] on modes *)
Definition Mode_eqb (a b : Mode) : bool :=
  match a, b with
  | VideoOnly, VideoOnly | CompositingCaption, CompositingCaption | Both, Both => true
  | _, _ => false
  end.

(** An [ImageBitmap]: its size and its RGBA bytes. *)
Record ImageBitmap := {
  bitmap_width : Z;
  bitmap_height : Z;
  bitmap_data : list Z;
}.

Record ICaptureCompositorOptions := {
  mode : Mode;
  capture : ImageBitmap;
  caption : option ImageBitmap;
  superimpose : option ImageBitmap;
  capture_comment_data : option ICaptureCommentData;
  capture_exif_data : ICaptureExifData;
}.

Record Blob := {
  blob_bytes : list Z;
  blob_type : jsstring;
}.

Record ICaptureCompositorResult := {
  capture_normal : option Blob;
  capture_caption : option Blob;
}.

(** ** Canvas *)

(** The drawing state of a [2d] context: the attributes the source assigns,
    plus the ones it leaves at their defaults.  An assignment to an attribute
    is a store; the browser's parsing of the assigned CSS strings is not part
    of the model. *)
Record Context2D := {
  fillStyle : jsstring;
  font : jsstring;
  textBaseline : jsstring;
  shadowOffsetX : number;
  shadowOffsetY : number;
  shadowBlur : number;
  shadowColor : jsstring;
  globalAlpha : number;
}.

(** The state of a context returned by [getContext('2d')]. *)
Definition default_state : Context2D := {|
  fillStyle := lit "#000000";
  font := lit "10px sans-serif";
  textBaseline := lit "alphabetic";
  shadowOffsetX := 0%float;
  shadowOffsetY := 0%float;
  shadowBlur := 0%float;
  shadowColor := lit "rgba(0, 0, 0, 0)";
  globalAlpha := 1%float;
|}.

(** A drawing command, with the drawing state it was issued under.  The
    source of a [drawImage] is a bitmap or another canvas (given by its own
    commands). *)
Inductive DrawOp :=
| FillText (st : Context2D) (text : jsstring) (x y : number)
| DrawImage (st : Context2D) (image : ImageSource) (dx dy dw dh : Z)
| TransferFromImageBitmap (bitmap : ImageBitmap)
with ImageSource :=
| Bitmap (bitmap : ImageBitmap)
| Layer (w h : Z) (has_alpha : bool) (commands : list DrawOp).

Inductive ContextKind := Ctx2D | CtxBitmapRenderer.

(** An [OffscreenCanvas] together with the one context obtained from it.
    [alpha] is the [alpha] option of [getContext]; [desynchronized] and
    [willReadFrequently] are performance hints and are left out. *)
Record OffscreenCanvas := {
  width : Z;
  height : Z;
  kind : ContextKind;
  alpha : bool;
  state : Context2D;
  ops : list DrawOp;
}.

(** [new OffscreenCanvas(w, h)] followed by [getContext(kind, {alpha})]. *)
Definition new_OffscreenCanvas (w h : Z) (k : ContextKind) (a : bool) : OffscreenCanvas :=
  {| width := w; height := h; kind := k; alpha := a;
     state := default_state; ops := [] |}.

Definition with_state (f : Context2D -> Context2D) (cv : OffscreenCanvas) : OffscreenCanvas :=
  {| width := width cv; height := height cv; kind := kind cv; alpha := alpha cv;
     state := f (state cv); ops := ops cv |}.

Definition emit (op : DrawOp) (cv : OffscreenCanvas) : OffscreenCanvas :=
  {| width := width cv; height := height cv; kind := kind cv; alpha := alpha cv;
     state := state cv; ops := ops cv ++ [op] |}.

Definition set_fillStyle (v : jsstring) (st : Context2D) : Context2D :=
  {| fillStyle := v; font := font st; textBaseline := textBaseline st;
     shadowOffsetX := shadowOffsetX st; shadowOffsetY := shadowOffsetY st;
     shadowBlur := shadowBlur st; shadowColor := shadowColor st;
     globalAlpha := globalAlpha st |}.

Definition set_font (v : jsstring) (st : Context2D) : Context2D :=
  {| fillStyle := fillStyle st; font := v; textBaseline := textBaseline st;
     shadowOffsetX := shadowOffsetX st; shadowOffsetY := shadowOffsetY st;
     shadowBlur := shadowBlur st; shadowColor := shadowColor st;
     globalAlpha := globalAlpha st |}.

Definition set_textBaseline (v : jsstring) (st : Context2D) : Context2D :=
  {| fillStyle := fillStyle st; font := font st; textBaseline := v;
     shadowOffsetX := shadowOffsetX st; shadowOffsetY := shadowOffsetY st;
     shadowBlur := shadowBlur st; shadowColor := shadowColor st;
     globalAlpha := globalAlpha st |}.

Definition set_shadowOffsetX (v : number) (st : Context2D) : Context2D :=
  {| fillStyle := fillStyle st; font := font st; textBaseline := textBaseline st;
     shadowOffsetX := v; shadowOffsetY := shadowOffsetY st;
     shadowBlur := shadowBlur st; shadowColor := shadowColor st;
     globalAlpha := globalAlpha st |}.

Definition set_shadowOffsetY (v : number) (st : Context2D) : Context2D :=
  {| fillStyle := fillStyle st; font := font st; textBaseline := textBaseline st;
     shadowOffsetX := shadowOffsetX st; shadowOffsetY := v;
     shadowBlur := shadowBlur st; shadowColor := shadowColor st;
     globalAlpha := globalAlpha st |}.

Definition set_shadowBlur (v : number) (st : Context2D) : Context2D :=
  {| fillStyle := fillStyle st; font := font st; textBaseline := textBaseline st;
     shadowOffsetX := shadowOffsetX st; shadowOffsetY := shadowOffsetY st;
     shadowBlur := v; shadowColor := shadowColor st;
     globalAlpha := globalAlpha st |}.

Definition set_shadowColor (v : jsstring) (st : Context2D) : Context2D :=
  {| fillStyle := fillStyle st; font := font st; textBaseline := textBaseline st;
     shadowOffsetX := shadowOffsetX st; shadowOffsetY := shadowOffsetY st;
     shadowBlur := shadowBlur st; shadowColor := v;
     globalAlpha := globalAlpha st |}.

Definition set_globalAlpha (v : number) (st : Context2D) : Context2D :=
  {| fillStyle := fillStyle st; font := font st; textBaseline := textBaseline st;
     shadowOffsetX := shadowOffsetX st; shadowOffsetY := shadowOffsetY st;
     shadowBlur := shadowBlur st; shadowColor := shadowColor st;
     globalAlpha := v |}.

(** [context.fillText(text, x, y)] *)
Definition fillText (text : jsstring) (x y : number) (cv : OffscreenCanvas) : OffscreenCanvas :=
  emit (FillText (state cv) text x y) cv.

(** [context.drawImage(image, dx, dy, dw, dh)] *)
Definition drawImage (image : ImageSource) (dx dy dw dh : Z) (cv : OffscreenCanvas) : OffscreenCanvas :=
  emit (DrawImage (state cv) image dx dy dw dh) cv.

(** [context.transferFromImageBitmap(bitmap)] *)
Definition transferFromImageBitmap (bitmap : ImageBitmap) (cv : OffscreenCanvas) : OffscreenCanvas :=
  emit (TransferFromImageBitmap bitmap) cv.

(** A canvas passed as the image of a [drawImage]. *)
Definition as_image (cv : OffscreenCanvas) : ImageSource :=
  Layer (width cv) (height cv) (alpha cv) (ops cv).

(** ** The platform *)

(** What the browser paints for a drawing command.  The worker never looks at
    pixels; the two laws are the facts about the Canvas API that the
    pixel-level properties below rest on: painting with a global alpha of zero
    changes nothing, and a bitmap drawn at its own size, under the default
    state, onto a fresh opaque canvas of that size gives what a
    [bitmaprenderer] context shows after the bitmap is transferred to it. *)
Class Raster := {
  pixels : Type;
  (** the bitmap of a new canvas: transparent black, or opaque black without alpha *)
  blank : Z -> Z -> bool -> pixels;
  bitmap_pixels : ImageBitmap -> pixels;
  (** the output bitmap of a [bitmaprenderer] context with [alpha: false] *)
  present : ImageBitmap -> pixels;
  paint_text : Context2D -> jsstring -> number -> number -> pixels -> pixels;
  paint_image : Context2D -> pixels -> Z -> Z -> Z -> Z -> pixels -> pixels;
  paint_image_transparent st src dx dy dw dh dst :
    globalAlpha st = 0%float -> paint_image st src dx dy dw dh dst = dst;
  paint_image_native b :
    paint_image default_state (bitmap_pixels b) 0 0 (bitmap_width b) (bitmap_height b)
      (blank (bitmap_width b) (bitmap_height b) false) = present b;
}.

Section Rasterize.
Context `{Raster}.

Fixpoint paint (op : DrawOp) (px : pixels) {struct op} : pixels :=
  match op with
  | FillText st text x y => paint_text st text x y px
  | DrawImage st image dx dy dw dh => paint_image st (image_pixels image) dx dy dw dh px
  | TransferFromImageBitmap bitmap => present bitmap
  end
with image_pixels (image : ImageSource) {struct image} : pixels :=
  match image with
  | Bitmap bitmap => bitmap_pixels bitmap
  | Layer w h a commands => fold_left (fun px op => paint op px) commands (blank w h a)
  end.

(** The bitmap a canvas holds after the commands issued on it. *)
Definition rasterize (cv : OffscreenCanvas) : pixels :=
  fold_left (fun px op => paint op px) (ops cv) (blank (width cv) (height cv) (alpha cv)).
End Rasterize.

(** ** EXIF *)

(** A value of an EXIF tag as [piexifjs] takes it: a number, a string or an
    array of numbers. *)
Inductive ExifValue :=
| ENum (n : Z)
| EStr (s : jsstring)
| EArr (l : list Z).

(** [piexif.IExif]: the ['0th'] and ['Exif'] groups, keyed by tag number. *)
Record IExif := {
  zeroth : gmap Z ExifValue;
  Exif : gmap Z ExifValue;
}.

(** [piexif.TagValues]: the tag numbers of the Exif standard. *)
Module TagValues.
Module ImageIFD.
Definition Orientation : Z := 274.
Definition XResolution : Z := 282.
Definition YResolution : Z := 283.
Definition ResolutionUnit : Z := 296.
Definition Software : Z := 305.
Definition DateTime : Z := 306.
Definition YCbCrPositioning : Z := 531.
Definition XPComment : Z := 40092.
End ImageIFD.
Module ExifIFD.
Definition ExifVersion : Z := 36864.
Definition DateTimeOriginal : Z := 36867.
Definition DateTimeDigitized : Z := 36868.
Definition ComponentsConfiguration : Z := 37121.
Definition FlashpixVersion : Z := 40960.
Definition ColorSpace : Z := 40961.
End ExifIFD.
End TagValues.

(** The libraries and builtins the worker calls: [Utils] and [dayjs] from the
    client's [@/utils], [piexifjs], and the JavaScript runtime. *)
Class Platform := {
  Platform_raster :: Raster;
  (** [Utils.version] *)
  Utils_version : jsstring;
  (** [dayjs(input).format(template)] *)
  dayjs_format : jsstring -> jsstring -> jsstring;
  JSON_stringify : ICaptureExifData -> jsstring;
  (** a number inside a template literal *)
  Number_toString : number -> jsstring;
  piexif_dump : IExif -> jsstring;
  piexif_insert : jsstring -> jsstring -> jsstring;
  (** the image encoder behind [convertToBlob]: pixels, size, type, quality *)
  encode : pixels -> Z -> Z -> jsstring -> number -> list Z;
}.

(** [[...Buffer.from(s, 'ucs2')]]: two bytes per code unit, low byte first. *)
Definition Buffer_from_ucs2 (s : jsstring) : list Z :=
  flat_map (fun c => [Z.land c 255; Z.land (Z.shiftr c 8) 255]) s.

Section Worker.
Context `{Platform}.

(** [canvas.convertToBlob({type, quality})] *)
Definition convertToBlob (canvas : OffscreenCanvas) (type : jsstring) (quality : number) : Blob :=
  {| blob_bytes := encode (rasterize canvas) (width canvas) (height canvas) type quality;
     blob_type := type |}.

(** The object literal [exif] of [setEXIFDataToCapture], for the value the
    shared record has when it is read. *)
Definition exif_of (capture_exif_data : ICaptureExifData) : IExif :=
  let datetime := dayjs_format (captured_at capture_exif_data) (lit "YYYY:MM:DD HH:mm:ss") in
  {| zeroth :=
       <[TagValues.ImageIFD.XResolution := EArr [72; 1]]>
       (<[TagValues.ImageIFD.YResolution := EArr [72; 1]]>
       (<[TagValues.ImageIFD.ResolutionUnit := ENum 2]>
       (<[TagValues.ImageIFD.YCbCrPositioning := ENum 1]>
       (<[TagValues.ImageIFD.DateTime := EStr datetime]>
       (<[TagValues.ImageIFD.Software := EStr (lit "KonomiTV version " ++ Utils_version)]>
       (<[TagValues.ImageIFD.XPComment :=
            EArr (Buffer_from_ucs2 (JSON_stringify capture_exif_data))]> ∅))))));
     Exif :=
       <[TagValues.ExifIFD.ExifVersion := EStr (lit "0230")]>
       (<[TagValues.ExifIFD.ComponentsConfiguration := EStr [1; 2; 3; 0]]>
       (<[TagValues.ExifIFD.FlashpixVersion := EStr (lit "0100")]>
       (<[TagValues.ExifIFD.ColorSpace := ENum 1]>
       (<[TagValues.ExifIFD.DateTimeOriginal := EStr datetime]>
       (<[TagValues.ExifIFD.DateTimeDigitized := EStr datetime]> ∅))))) |}.

(** [setEXIFDataToCapture] up to its [await]: the EXIF block is built and
    dumped, the [FileReader] is started. *)
Definition setEXIFDataToCapture_dump (capture_exif_data : ICaptureExifData) : jsstring :=
  piexif_dump (exif_of capture_exif_data).

(** [reader.readAsBinaryString(blob)]: one code unit per byte. *)
Definition readAsBinaryString (blob : Blob) : jsstring := blob_bytes blob.

(** [setEXIFDataToCapture] after its [await]: the block is inserted and the
    binary string copied into a [Uint8Array]. *)
Definition setEXIFDataToCapture_insert (exif_string : jsstring) (blob : Blob) : Blob :=
  let blob_string := readAsBinaryString blob in
  let blob_string_with_exif := piexif_insert exif_string blob_string in
  let buffer := map (fun c => Z.land c 255) blob_string_with_exif in
  {| blob_bytes := buffer; blob_type := blob_type blob |}.

(** What [setEXIFDataToCapture(blob)] returns when the shared record holds
    [capture_exif_data] at the time of the call. *)
Definition setEXIFDataToCapture (capture_exif_data : ICaptureExifData) (blob : Blob) : Blob :=
  setEXIFDataToCapture_insert (setEXIFDataToCapture_dump capture_exif_data) blob.
End Worker.

(** ** The worker's state *)

Inductive Error := AssertionError | InvalidStateError.

(** The three compositing methods. *)
Inductive Path := CaptionMode | NormalMode | NormalDirectMode.

(** What a method does with [this.options.capture]. *)
Inductive Access := ReadWidth | ReadHeight | Draw | Transfer | Close.

(** The state the methods share: [this.options] (one object, with the one
    [capture_exif_data] record all methods write to), whether the capture
    bitmap has been detached, and the log of accesses to that bitmap. *)
Record World := {
  options : ICaptureCompositorOptions;
  capture_detached : bool;
  accesses : list (Path * Access);
}.

(** Synchronous code: it changes the state and returns or throws; what it
    changed before a throw stays changed. *)
Definition M (A : Type) : Type := World -> World * (Error + A).

Definition ret {A} (a : A) : M A := fun w => (w, inr a).

Definition bind {A B} (m : M A) (f : A -> M B) : M B := fun w =>
  match m w with
  | (w', inl e) => (w', inl e)
  | (w', inr a) => f a w'
  end.

Declare Scope worker_scope.
Delimit Scope worker_scope with worker.
Bind Scope worker_scope with M.
Notation "'let*' x := m 'in' k" := (bind m (fun x => k))
  (at level 10, x pattern, m at level 100, k at level 200) : worker_scope.
Notation "m ;;; k" := (bind m (fun _ => k))
  (at level 100, k at level 200, right associativity) : worker_scope.
#[local] Open Scope worker_scope.

Definition throw {A} (e : Error) : M A := fun w => (w, inl e).

Definition assert (b : bool) : M unit :=
  if b then ret tt else throw AssertionError.

(** [x === null] *)
Definition is_null {A} (x : option A) : bool :=
  match x with None => true | Some _ => false end.

(** [list.includes(x)] *)
Definition includes (l : list Mode) (x : Mode) : bool :=
  existsb (fun y => Mode_eqb y x) l.

Definition this_options : M ICaptureCompositorOptions :=
  fun w => (w, inr (options w)).

Definition update_exif (f : ICaptureExifData -> ICaptureExifData) : M unit :=
  fun w =>
    let o := options w in
    ({| options := {| mode := mode o; capture := capture o; caption := caption o;
                      superimpose := superimpose o;
                      capture_comment_data := capture_comment_data o;
                      capture_exif_data := f (capture_exif_data o) |};
        capture_detached := capture_detached w;
        accesses := accesses w |}, inr tt).

(** [this.options.capture_exif_data.is_caption_composited = v] *)
Definition set_is_caption_composited (v : bool) : M unit :=
  update_exif (fun d =>
    {| captured_at := captured_at d;
       captured_playback_position := captured_playback_position d;
       network_id := network_id d; service_id := service_id d; event_id := event_id d;
       title := title d; description := description d;
       start_time := start_time d; end_time := end_time d; duration := duration d;
       caption_text := caption_text d;
       is_caption_composited := v;
       is_comment_composited := is_comment_composited d |}).

(** [this.options.capture_exif_data.is_comment_composited = v] *)
Definition set_is_comment_composited (v : bool) : M unit :=
  update_exif (fun d =>
    {| captured_at := captured_at d;
       captured_playback_position := captured_playback_position d;
       network_id := network_id d; service_id := service_id d; event_id := event_id d;
       title := title d; description := description d;
       start_time := start_time d; end_time := end_time d; duration := duration d;
       caption_text := caption_text d;
       is_caption_composited := is_caption_composited d;
       is_comment_composited := v |}).

Definition touch (p : Path) (a : Access) : M unit :=
  fun w =>
    ({| options := options w; capture_detached := capture_detached w;
        accesses := accesses w ++ [(p, a)] |}, inr tt).

Definition detach : M unit :=
  fun w =>
    ({| options := options w; capture_detached := true;
        accesses := accesses w |}, inr tt).

Definition is_detached : M bool := fun w => (w, inr (capture_detached w)).

(** [this.options.capture.width]: a detached bitmap has width 0. *)
Definition capture_width (p : Path) : M Z :=
  touch p ReadWidth;;;
  let* o := this_options in
  let* d := is_detached in
  ret (if d then 0 else bitmap_width (capture o)).

(** [this.options.capture.height] *)
Definition capture_height (p : Path) : M Z :=
  touch p ReadHeight;;;
  let* o := this_options in
  let* d := is_detached in
  ret (if d then 0 else bitmap_height (capture o)).

(** [context.drawImage(this.options.capture, 0, 0, canvas.width, canvas.height)]:
    drawing a detached bitmap throws. *)
Definition drawImage_capture (p : Path) (canvas : OffscreenCanvas) : M OffscreenCanvas :=
  touch p Draw;;;
  let* o := this_options in
  let* d := is_detached in
  if d then throw InvalidStateError
  else ret (drawImage (Bitmap (capture o)) 0 0 (width canvas) (height canvas) canvas).

(** [context.transferFromImageBitmap(this.options.capture)]: the bitmap's data
    moves into the canvas and the bitmap is detached. *)
Definition transferFromImageBitmap_capture (p : Path) (canvas : OffscreenCanvas) : M OffscreenCanvas :=
  touch p Transfer;;;
  let* o := this_options in
  let* d := is_detached in
  if d then throw InvalidStateError
  else detach;;; ret (transferFromImageBitmap (capture o) canvas).

(** [this.options.capture.close()] *)
Definition close_capture (p : Path) : M unit :=
  touch p Close;;; detach.

(** ** The compositing methods *)

(** A promise of a compositing method.  The method runs synchronously up to
    the [await] inside [exportToBlob]; the two later states are its two
    suspension points: [canvas.convertToBlob] in [exportToBlob], and the
    [FileReader] in [setEXIFDataToCapture], which is entered with the EXIF
    block already dumped. *)
Inductive Promise :=
| Pending_convertToBlob (canvas : OffscreenCanvas)
| Pending_FileReader (exif_string : jsstring) (blob : Blob)
| Fulfilled (blob : Blob)
| Rejected (e : Error).

(** An [async] method called: its body runs up to the first [await], a throw
    rejects the promise it returns. *)
Definition async (body : M Promise) : World -> World * Promise := fun w =>
  match body w with
  | (w', inl e) => (w', Rejected e)
  | (w', inr p) => (w', p)
  end.

(** [exportToBlob(canvas)], up to its first [await]. *)
Definition exportToBlob (canvas : OffscreenCanvas) : Promise :=
  Pending_convertToBlob canvas.

Section Methods.
Context `{Platform}.

(** One iteration of the loop of [compositeComments]. *)
Definition draw_comment (width_ratio height_ratio : number)
    (comment_canvas : OffscreenCanvas) (comment : Comment.t) : OffscreenCanvas :=
  let comment_canvas := with_state (set_fillStyle (Comment.color comment)) comment_canvas in
  let comment_canvas := with_state (set_font
    (lit "bold " ++ Number_toString (Comment.font_size comment * width_ratio)%float
     ++ lit "px 'Open Sans','Hiragino Sans','Noto Sans JP',sans-serif")) comment_canvas in
  let comment_canvas := with_state (set_shadowOffsetX (1.2 * width_ratio)%float) comment_canvas in
  let comment_canvas := with_state (set_shadowOffsetY (1.2 * width_ratio)%float) comment_canvas in
  let comment_canvas := with_state (set_shadowBlur (4 * width_ratio)%float) comment_canvas in
  let comment_canvas := with_state (set_shadowColor (lit "rgba(0, 0, 0, 0.9)")) comment_canvas in
  fillText (Comment.text comment)
    (Comment.left comment * width_ratio)%float
    (Comment.top comment * height_ratio)%float comment_canvas.

Definition compositeComments (canvas : OffscreenCanvas) : M OffscreenCanvas :=
  let* o := this_options in
  match capture_comment_data o with
  | None => throw AssertionError
  | Some data =>
      let comment_canvas := new_OffscreenCanvas (width canvas) (height canvas) Ctx2D true in
      let width_ratio := (number_of_Z (width canvas) / container_width data)%float in
      let height_ratio := (number_of_Z (height canvas) / container_height data)%float in
      let comment_canvas := with_state (set_textBaseline (lit "top")) comment_canvas in
      let comment_canvas :=
        fold_left (draw_comment width_ratio height_ratio) (comments data) comment_canvas in
      let canvas := with_state (set_globalAlpha (opacity data)) canvas in
      ret (drawImage (as_image comment_canvas) 0 0 (width canvas) (height canvas) canvas)
  end.

Definition compositeInNormalDirectMode : M Promise :=
  let* o := this_options in
  assert (is_null (superimpose o));;;
  assert (is_null (capture_comment_data o));;;
  set_is_caption_composited false;;;
  set_is_comment_composited false;;;
  let* w := capture_width NormalDirectMode in
  let* h := capture_height NormalDirectMode in
  let normal_direct_canvas := new_OffscreenCanvas w h CtxBitmapRenderer false in
  let* normal_direct_canvas :=
    transferFromImageBitmap_capture NormalDirectMode normal_direct_canvas in
  close_capture NormalDirectMode;;;
  ret (exportToBlob normal_direct_canvas).

Definition compositeInNormalMode : M Promise :=
  let* o := this_options in
  set_is_caption_composited false;;;
  (if negb (is_null (capture_comment_data o))
   then set_is_comment_composited true
   else set_is_comment_composited false);;;
  let* w := capture_width NormalMode in
  let* h := capture_height NormalMode in
  let normal_canvas := new_OffscreenCanvas w h Ctx2D false in
  let* normal_canvas := drawImage_capture NormalMode normal_canvas in
  let* normal_canvas :=
    match superimpose o with
    | Some superimpose =>
        ret (drawImage (Bitmap superimpose) 0 0
               (width normal_canvas) (height normal_canvas) normal_canvas)
    | None => ret normal_canvas
    end in
  let* normal_canvas :=
    if negb (is_null (capture_comment_data o))
    then compositeComments normal_canvas
    else ret normal_canvas in
  ret (exportToBlob normal_canvas).

Definition compositeInCaptionMode : M Promise :=
  let* o := this_options in
  match caption o with
  | None => throw AssertionError
  | Some caption =>
      set_is_caption_composited true;;;
      (if negb (is_null (capture_comment_data o))
       then set_is_comment_composited true
       else set_is_comment_composited false);;;
      let* w := capture_width CaptionMode in
      let* h := capture_height CaptionMode in
      let caption_canvas := new_OffscreenCanvas w h Ctx2D false in
      let* caption_canvas := drawImage_capture CaptionMode caption_canvas in
      let* caption_canvas :=
        match superimpose o with
        | Some superimpose =>
            ret (drawImage (Bitmap superimpose) 0 0
                   (width caption_canvas) (height caption_canvas) caption_canvas)
        | None => ret caption_canvas
        end in
      let caption_canvas :=
        drawImage (Bitmap caption) 0 0
          (width caption_canvas) (height caption_canvas) caption_canvas in
      let* caption_canvas :=
        if negb (is_null (capture_comment_data o))
        then compositeComments caption_canvas
        else ret caption_canvas in
      ret (exportToBlob caption_canvas)
  end.

(** ** The event loop *)

(** A suspended method resumed when the operation it awaits has completed.
    The EXIF block is built here, from the shared record as it is then. *)
Definition resume (w : World) (p : Promise) : Promise :=
  match p with
  | Pending_convertToBlob canvas =>
      let blob := convertToBlob canvas (lit "image/jpeg") 0.99%float in
      Pending_FileReader (setEXIFDataToCapture_dump (capture_exif_data (options w))) blob
  | Pending_FileReader exif_string blob =>
      Fulfilled (setEXIFDataToCapture_insert exif_string blob)
  | Fulfilled _ | Rejected _ => p
  end.

(** The value a promise settles to once the operations it still waits for
    have completed. *)
Definition await (w : World) (p : Promise) : Error + Blob :=
  match p with
  | Pending_convertToBlob canvas =>
      inr (setEXIFDataToCapture (capture_exif_data (options w))
             (convertToBlob canvas (lit "image/jpeg") 0.99%float))
  | Pending_FileReader exif_string blob =>
      inr (setEXIFDataToCapture_insert exif_string blob)
  | Fulfilled blob => inr blob
  | Rejected e => inl e
  end.

(** A variable holding a promise or [null]; awaiting [null] gives [null]. *)
Definition await_var (w : World) (p : option Promise) : Error + option Blob :=
  match p with
  | None => inr None
  | Some p =>
      match await w p with
      | inl e => inl e
      | inr blob => inr (Some blob)
      end
  end.

(** Which of the two productions has its pending operation complete next. *)
Inductive Production := Captioned | Normal.

(** The event loop while [composite] waits in [Promise.all]: pending
    operations complete in the order the schedule gives (the browser's
    choice), each completion resuming the method that awaits it. *)
Fixpoint event_loop (schedule : list Production) (w : World)
    (capture_caption_promise capture_normal_promise : option Promise)
    : option Promise * option Promise :=
  match schedule with
  | [] => (capture_caption_promise, capture_normal_promise)
  | Captioned :: schedule =>
      event_loop schedule w (resume w <$> capture_caption_promise) capture_normal_promise
  | Normal :: schedule =>
      event_loop schedule w capture_caption_promise (resume w <$> capture_normal_promise)
  end.

(** [await Promise.all([capture_caption_promise, capture_normal_promise])] *)
Definition Promise_all (schedule : list Production) (w : World)
    (capture_caption_promise capture_normal_promise : option Promise)
    : Error + (option Blob * option Blob) :=
  let '(capture_caption_promise, capture_normal_promise) :=
    event_loop schedule w capture_caption_promise capture_normal_promise in
  match await_var w capture_caption_promise, await_var w capture_normal_promise with
  | inl e, _ => inl e
  | inr _, inl e => inl e
  | inr capture_caption, inr capture_normal => inr (capture_caption, capture_normal)
  end.

(** ** The orchestrator *)

(** The state of a worker constructed for a job. *)
Definition new_CaptureCompositor (options : ICaptureCompositorOptions) : World :=
  {| options := options; capture_detached := false; accesses := [] |}.

(** [composite()], on the worker state [w].  Both methods are called, each
    running up to its first [await], before [composite] itself waits; only
    then do their continuations run. *)
Definition composite_from (schedule : list Production) (w : World)
    : World * (Error + ICaptureCompositorResult) :=
  let '(w, capture_caption_promise) :=
    if includes [CompositingCaption; Both] (mode (options w))
       && negb (is_null (caption (options w)))
    then let '(w, p) := async compositeInCaptionMode w in (w, Some p)
    else (w, None) in
  let '(w, capture_normal_promise) :=
    if includes [VideoOnly; Both] (mode (options w))
       || (Mode_eqb (mode (options w)) CompositingCaption
           && is_null (caption (options w)))
    then
      if is_null (superimpose (options w)) && is_null (capture_comment_data (options w))
      then let '(w, p) := async compositeInNormalDirectMode w in (w, Some p)
      else let '(w, p) := async compositeInNormalMode w in (w, Some p)
    else (w, None) in
  match Promise_all schedule w capture_caption_promise capture_normal_promise with
  | inl e => (w, inl e)
  | inr (capture_caption, capture_normal) =>
      (w, inr {| capture_normal := capture_normal; capture_caption := capture_caption |})
  end.

(** [new CaptureCompositor(options).composite()] *)
Definition composite (schedule : list Production) (options : ICaptureCompositorOptions)
    : World * (Error + ICaptureCompositorResult) :=
  composite_from schedule (new_CaptureCompositor options).
End Methods.

(** ** What a run gives

    The values the properties below are stated with: the canvases each method
    builds, the state [composite] leaves and the result it resolves to, written
    out as functions of the job. *)

Section Expected.
Context `{Platform}.

(** The command the loop of [compositeComments] issues for one comment. *)
Definition comment_op (width_ratio height_ratio : number) (c : Comment.t) : DrawOp :=
  FillText
    {| fillStyle := Comment.color c;
       font := lit "bold " ++ Number_toString (Comment.font_size c * width_ratio)%float
               ++ lit "px 'Open Sans','Hiragino Sans','Noto Sans JP',sans-serif";
       textBaseline := lit "top";
       shadowOffsetX := (1.2 * width_ratio)%float;
       shadowOffsetY := (1.2 * width_ratio)%float;
       shadowBlur := (4 * width_ratio)%float;
       shadowColor := lit "rgba(0, 0, 0, 0.9)";
       globalAlpha := 1%float |}
    (Comment.text c)
    (Comment.left c * width_ratio)%float
    (Comment.top c * height_ratio)%float.

(** The comment canvas for a target of size [w] x [h], as an image. *)
Definition comment_layer (data : ICaptureCommentData) (w h : Z) : ImageSource :=
  Layer w h true
    (map (comment_op (number_of_Z w / container_width data)%float
                     (number_of_Z h / container_height data)%float)
         (comments data)).

(** The target canvas after [compositeComments]. *)
Definition comments_onto (data : ICaptureCommentData) (canvas : OffscreenCanvas) : OffscreenCanvas :=
  {| width := width canvas; height := height canvas;
     kind := kind canvas; alpha := alpha canvas;
     state := set_globalAlpha (opacity data) (state canvas);
     ops := ops canvas ++
            [DrawImage (set_globalAlpha (opacity data) (state canvas))
               (comment_layer data (width canvas) (height canvas))
               0 0 (width canvas) (height canvas)] |}.

(** [this.options] with the two flags of its EXIF record overwritten. *)
Definition with_flags (o : ICaptureCompositorOptions) (caption_flag comment_flag : bool)
    : ICaptureCompositorOptions :=
  let d := capture_exif_data o in
  {| mode := mode o; capture := capture o; caption := caption o;
     superimpose := superimpose o; capture_comment_data := capture_comment_data o;
     capture_exif_data :=
       {| captured_at := captured_at d;
          captured_playback_position := captured_playback_position d;
          network_id := network_id d; service_id := service_id d; event_id := event_id d;
          title := title d; description := description d;
          start_time := start_time d; end_time := end_time d; duration := duration d;
          caption_text := caption_text d;
          is_caption_composited := caption_flag;
          is_comment_composited := comment_flag |} |}.

(** A canvas of the capture's size with the capture drawn on it. *)
Definition frame_canvas (o : ICaptureCompositorOptions) : OffscreenCanvas :=
  let w := bitmap_width (capture o) in
  let h := bitmap_height (capture o) in
  drawImage (Bitmap (capture o)) 0 0 w h (new_OffscreenCanvas w h Ctx2D false).

Definition add_superimpose (o : ICaptureCompositorOptions) (cv : OffscreenCanvas) : OffscreenCanvas :=
  match superimpose o with
  | Some s => drawImage (Bitmap s) 0 0 (width cv) (height cv) cv
  | None => cv
  end.

Definition add_comments (o : ICaptureCompositorOptions) (cv : OffscreenCanvas) : OffscreenCanvas :=
  match capture_comment_data o with
  | Some data => comments_onto data cv
  | None => cv
  end.

(** The canvases the three methods hand to [exportToBlob]. *)
Definition normal_canvas (o : ICaptureCompositorOptions) : OffscreenCanvas :=
  add_comments o (add_superimpose o (frame_canvas o)).

Definition caption_canvas (o : ICaptureCompositorOptions) (c : ImageBitmap) : OffscreenCanvas :=
  let cv := add_superimpose o (frame_canvas o) in
  add_comments o (drawImage (Bitmap c) 0 0 (width cv) (height cv) cv).

Definition direct_canvas (o : ICaptureCompositorOptions) : OffscreenCanvas :=
  transferFromImageBitmap (capture o)
    (new_OffscreenCanvas (bitmap_width (capture o)) (bitmap_height (capture o))
       CtxBitmapRenderer false).

(** The two conditions of [composite], and its choice of the direct method. *)
Definition caption_scheduled (o : ICaptureCompositorOptions) : bool :=
  includes [CompositingCaption; Both] (mode o) && negb (is_null (caption o)).

Definition normal_scheduled (o : ICaptureCompositorOptions) : bool :=
  includes [VideoOnly; Both] (mode o)
  || (Mode_eqb (mode o) CompositingCaption && is_null (caption o)).

Definition direct_selected (o : ICaptureCompositorOptions) : bool :=
  normal_scheduled o && (is_null (superimpose o) && is_null (capture_comment_data o)).

(** The worker's state when [composite] has returned. *)
Definition composite_world (job : ICaptureCompositorOptions) : World :=
  {| options :=
       with_flags job (negb (normal_scheduled job))
         (negb (is_null (capture_comment_data job)));
     capture_detached := direct_selected job;
     accesses :=
       (if caption_scheduled job
        then [(CaptionMode, ReadWidth); (CaptionMode, ReadHeight); (CaptionMode, Draw)]
        else [])
       ++ (if direct_selected job
           then [(NormalDirectMode, ReadWidth); (NormalDirectMode, ReadHeight);
                 (NormalDirectMode, Transfer); (NormalDirectMode, Close)]
           else if normal_scheduled job
           then [(NormalMode, ReadWidth); (NormalMode, ReadHeight); (NormalMode, Draw)]
           else []) |}.

(** A canvas exported while the shared record holds [d]. *)
Definition exported (d : ICaptureExifData) (canvas : OffscreenCanvas) : Blob :=
  setEXIFDataToCapture d (convertToBlob canvas (lit "image/jpeg") 0.99%float).

(** The value [composite] resolves to. *)
Definition composite_result (job : ICaptureCompositorOptions) : ICaptureCompositorResult :=
  let d := capture_exif_data (options (composite_world job)) in
  {| capture_normal :=
       if direct_selected job then Some (exported d (direct_canvas job))
       else if normal_scheduled job then Some (exported d (normal_canvas job))
       else None;
     capture_caption :=
       match caption job with
       | Some c =>
           if includes [CompositingCaption; Both] (mode job)
           then Some (exported d (caption_canvas job c))
           else None
       | None => None
       end |}.

(** [b] is a canvas exported while the shared EXIF record held [d]: the
    record [b] carries in its EXIF block is [d]. *)
Definition embeds (b : Blob) (d : ICaptureExifData) : Prop :=
  exists canvas, b = exported d canvas.

(** The direct method ran: the capture was transferred to its canvas. *)
Definition direct_path_ran (w : World) : Prop :=
  In (NormalDirectMode, Transfer) (accesses w).

(** The methods that transferred the capture, in order. *)
Definition transfers (l : list (Path * Access)) : list Path :=
  flat_map (fun '(p, a) => match a with Transfer => [p] | _ => [] end) l.

End Expected.

(** ** More of what a run gives *)

(** The text whose [Buffer.from(_, 'ucs2')] bytes are given: the bytes taken
    two by two, low byte first.  A trailing odd byte is dropped. *)
Fixpoint ucs2_decode (bytes : list Z) : jsstring :=
  match bytes with
  | lo :: hi :: rest => (lo + 256 * hi) :: ucs2_decode rest
  | _ => []
  end.

(** The worker's state after [composite] was called in state [w]. *)
Definition after_composite (w : World) : World :=
  let o := options w in
  {| options :=
       with_flags o (negb (normal_scheduled o)) (negb (is_null (capture_comment_data o)));
     capture_detached := direct_selected o;
     accesses :=
       accesses w
       ++ (if caption_scheduled o
           then [(CaptionMode, ReadWidth); (CaptionMode, ReadHeight); (CaptionMode, Draw)]
           else [])
       ++ (if direct_selected o
           then [(NormalDirectMode, ReadWidth); (NormalDirectMode, ReadHeight);
                 (NormalDirectMode, Transfer); (NormalDirectMode, Close)]
           else if normal_scheduled o
           then [(NormalMode, ReadWidth); (NormalMode, ReadHeight); (NormalMode, Draw)]
           else []) |}.

(** The commands of a 2d canvas of size [w] x [h] on which the given layers
    were drawn in turn, each stretched over the whole canvas. *)
Definition drawn_layers (w h : Z) (layers : list (Context2D * ImageSource)) : list DrawOp :=
  map (fun '(st, image) => DrawImage st image 0 0 w h) layers.


(** ** A software platform

    A small implementation of the [Platform] interface, so that the model
    runs on concrete jobs: 8-bit RGBA pixels blended with source-over, no
    resampling and no glyphs (a text draw marks its anchor pixel), and
    simplified stand-ins for the encoders.  It shows that the laws of
    [Raster] can be met; none of the worker's logic lives here. *)
Module Sim.

Definition Px : Type := Z * Z * Z * Z.

Definition transparent : Px := (0, 0, 0, 0).
Definition black : Px := (0, 0, 0, 255).
Definition white : Px := (255, 255, 255, 255).

Record Pixels := {
  stride : Z;
  data : list Px;
}.

(** The largest [k] below [2^bits] with [k <= x], found bit by bit. *)
Fixpoint floor_bits (bits : nat) (acc : Z) (x : number) : Z :=
  match bits with
  | O => acc
  | S n =>
      let candidate := acc + 2 ^ Z.of_nat n in
      floor_bits n (if PrimFloat.leb (number_of_Z candidate) x then candidate else acc) x
  end.

Definition floor (x : number) : Z := floor_bits 32 0 x.

(** A global alpha as an 8-bit coverage. *)
Definition alpha8 (a : number) : Z := Z.min 255 (floor (a * 255)%float).

(** One channel of source-over with source coverage [a] out of 255 * 255. *)
Definition mix (a s d : Z) : Z := (s * a + d * (65025 - a)) / 65025.

Definition over (global : Z) (s d : Px) : Px :=
  let '(sr, sg, sb, sa) := s in
  let '(dr, dg, db, da) := d in
  let a := global * sa in
  (mix a sr dr, mix a sg dg, mix a sb db, mix a 255 da).

(** A pixel shown on an opaque black background. *)
Definition flatten (s : Px) : Px :=
  let '(r, g, b, a) := s in
  (r * a / 255, g * a / 255, b * a / 255, 255).

Fixpoint group4 (l : list Z) : list Px :=
  match l with
  | r :: g :: b :: a :: rest => (r, g, b, a) :: group4 rest
  | _ => []
  end.

Definition area (w h : Z) : nat := Z.to_nat (w * h).

Definition sim_blank (w h : Z) (a : bool) : Pixels :=
  {| stride := w; data := replicate (area w h) (if a then transparent else black) |}.

Definition sim_bitmap_pixels (b : ImageBitmap) : Pixels :=
  {| stride := bitmap_width b;
     data := resize (area (bitmap_width b) (bitmap_height b)) transparent
               (group4 (bitmap_data b)) |}.

Definition sim_present (b : ImageBitmap) : Pixels :=
  {| stride := bitmap_width b; data := flatten <$> data (sim_bitmap_pixels b) |}.

Definition sim_paint_image (st : Context2D) (src : Pixels) (dx dy dw dh : Z)
    (dst : Pixels) : Pixels :=
  {| stride := stride dst;
     data := zip_with (over (alpha8 (globalAlpha st)))
               (resize (length (data dst)) transparent (data src)) (data dst) |}.

Definition sim_paint_text (st : Context2D) (text : jsstring) (x y : number)
    (dst : Pixels) : Pixels :=
  {| stride := stride dst;
     data := alter (over (alpha8 (globalAlpha st)) white)
               (Z.to_nat (floor y * stride dst + floor x)) (data dst) |}.

Lemma mix_zero s d : mix 0 s d = d.
Proof.
  unfold mix. rewrite Z.mul_0_r, Z.add_0_l, Z.sub_0_r.
  apply Z.div_mul. discriminate.
Qed.

Lemma over_zero s d : over 0 s d = d.
Proof.
  destruct s as [[[sr sg] sb] sa], d as [[[dr dg] db] da].
  unfold over. rewrite Z.mul_0_l, !mix_zero. reflexivity.
Qed.

Lemma over_black s : over 255 s black = flatten s.
Proof.
  destruct s as [[[r g] b] a]. unfold over, black, flatten, mix.
  assert (Hc : forall c, (c * (255 * a) + 0 * (65025 - 255 * a)) / 65025 = c * a / 255).
  { intros c. replace (c * (255 * a) + 0 * (65025 - 255 * a)) with ((c * a) * 255) by ring.
    change 65025 with (255 * 255). apply Z.div_mul_cancel_r; discriminate. }
  rewrite !Hc.
  replace (255 * (255 * a) + 255 * (65025 - 255 * a)) with (255 * 65025) by ring.
  rewrite Z.div_mul by discriminate. reflexivity.
Qed.

Lemma zip_with_over_zero (l d : list Px) :
  length l = length d -> zip_with (over 0) l d = d.
Proof.
  revert d. induction l as [|s l IH]; intros [|p d] Hlen; simpl in *; try discriminate.
  - reflexivity.
  - rewrite over_zero, IH by congruence. reflexivity.
Qed.

Lemma zip_with_replicate {A B C} (f : A -> B -> C) (l : list A) (x : B) :
  zip_with f l (replicate (length l) x) = (fun s => f s x) <$> l.
Proof. induction l as [|s l IH]; simpl; [reflexivity | rewrite IH; reflexivity]. Qed.

Lemma alpha8_zero : alpha8 0%float = 0.
Proof. vm_compute. reflexivity. Qed.

Lemma alpha8_one : alpha8 1%float = 255.
Proof. vm_compute. reflexivity. Qed.

Lemma sim_paint_image_transparent st src dx dy dw dh dst :
  globalAlpha st = 0%float -> sim_paint_image st src dx dy dw dh dst = dst.
Proof.
  intros Ha. destruct dst as [w d]. unfold sim_paint_image. simpl.
  rewrite Ha, alpha8_zero, zip_with_over_zero; [reflexivity | apply length_resize].
Qed.

Lemma sim_paint_image_native b :
  sim_paint_image default_state (sim_bitmap_pixels b) 0 0 (bitmap_width b) (bitmap_height b)
    (sim_blank (bitmap_width b) (bitmap_height b) false) = sim_present b.
Proof.
  unfold sim_paint_image, sim_present, sim_blank, sim_bitmap_pixels. simpl.
  f_equal. rewrite alpha8_one.
  set (n := area (bitmap_width b) (bitmap_height b)).
  set (l := resize n transparent (group4 (bitmap_data b))).
  assert (Hl : length l = n) by apply length_resize.
  rewrite length_replicate, <- Hl, resize_all, zip_with_replicate.
  apply list_fmap_ext. intros _ s _. apply over_black.
Qed.

Definition raster : Raster := {|
  pixels := Pixels;
  blank := sim_blank;
  bitmap_pixels := sim_bitmap_pixels;
  present := sim_present;
  paint_text := sim_paint_text;
  paint_image := sim_paint_image;
  paint_image_transparent := sim_paint_image_transparent;
  paint_image_native := sim_paint_image_native;
|}.

(** The integer part of a number, in decimal. *)
Definition sim_Number_toString (x : number) : jsstring :=
  lit (NilZero.string_of_int (Z.to_int (floor x))).

Definition quoted (s : jsstring) : jsstring := [34] ++ s ++ [34].

Definition sim_JSON_stringify (d : ICaptureExifData) : jsstring :=
  lit "{" ++ quoted (lit "captured_at") ++ lit ":" ++ quoted (captured_at d)
  ++ lit "," ++ quoted (lit "captured_playback_position") ++ lit ":"
  ++ sim_Number_toString (captured_playback_position d)
  ++ lit "," ++ quoted (lit "network_id") ++ lit ":" ++ sim_Number_toString (network_id d)
  ++ lit "," ++ quoted (lit "service_id") ++ lit ":" ++ sim_Number_toString (service_id d)
  ++ lit "," ++ quoted (lit "event_id") ++ lit ":" ++ sim_Number_toString (event_id d)
  ++ lit "," ++ quoted (lit "title") ++ lit ":" ++ quoted (title d)
  ++ lit "," ++ quoted (lit "description") ++ lit ":" ++ quoted (description d)
  ++ lit "," ++ quoted (lit "start_time") ++ lit ":" ++ quoted (start_time d)
  ++ lit "," ++ quoted (lit "end_time") ++ lit ":" ++ quoted (end_time d)
  ++ lit "," ++ quoted (lit "duration") ++ lit ":" ++ sim_Number_toString (duration d)
  ++ lit "," ++ quoted (lit "caption_text") ++ lit ":"
  ++ match caption_text d with Some t => quoted t | None => lit "null" end
  ++ lit "," ++ quoted (lit "is_caption_composited") ++ lit ":"
  ++ lit (if is_caption_composited d then "true" else "false")
  ++ lit "," ++ quoted (lit "is_comment_composited") ++ lit ":"
  ++ lit (if is_comment_composited d then "true" else "false")
  ++ lit "}".

(** The first 19 characters of an ISO 8601 time, with the separators of the
    template. *)
Definition sim_dayjs_format (input template : jsstring) : jsstring :=
  (fun c => if bool_decide (c = 45) then 58 else if bool_decide (c = 84) then 32 else c)
    <$> take 19 input.

Definition sim_value_bytes (v : ExifValue) : list Z :=
  match v with
  | ENum n => [n]
  | EStr s => s ++ [0]
  | EArr l => l
  end.

Definition sim_ifd_bytes (ifd : gmap Z ExifValue) : list Z :=
  flat_map (fun '(tag, v) => [Z.shiftr tag 8; Z.land tag 255] ++ sim_value_bytes v)
    (map_to_list ifd).

Definition sim_piexif_dump (exif : IExif) : jsstring :=
  lit "Exif" ++ [0; 0] ++ sim_ifd_bytes (zeroth exif) ++ sim_ifd_bytes (Exif exif).

(** The block goes into an APP1 segment right after the SOI marker. *)
Definition sim_piexif_insert (exif jpeg : jsstring) : jsstring :=
  match jpeg with
  | 255 :: 216 :: rest => [255; 216; 255; 225] ++ exif ++ rest
  | _ => jpeg
  end.

Definition sim_encode (px : Pixels) (w h : Z) (type : jsstring) (quality : number) : list Z :=
  [255; 216] ++ flat_map (fun '(r, g, b, _) => [r; g; b]) (data px) ++ [255; 217].

Definition platform : Platform := {|
  Platform_raster := raster;
  Utils_version := lit "0.7.1";
  dayjs_format := sim_dayjs_format;
  JSON_stringify := sim_JSON_stringify;
  Number_toString := sim_Number_toString;
  piexif_dump := sim_piexif_dump;
  piexif_insert := sim_piexif_insert;
  encode := sim_encode;
|}.

(** Whether [needle] occurs in [hay] as a contiguous run. *)
Fixpoint is_prefix (needle hay : list Z) : bool :=
  match needle, hay with
  | [], _ => true
  | x :: needle', y :: hay' => Z.eqb x y && is_prefix needle' hay'
  | _ :: _, [] => false
  end.

Fixpoint occurs (needle hay : list Z) : bool :=
  is_prefix needle hay
  || match hay with
     | [] => false
     | _ :: hay' => occurs needle hay'
     end.

(** *** Test jobs *)

Definition exif_data : ICaptureExifData := {|
  captured_at := lit "2023-04-05T12:34:56+09:00";
  captured_playback_position := 754%float;
  network_id := 32736%float;
  service_id := 1024%float;
  event_id := 4321%float;
  title := lit "News";
  description := lit "Evening news";
  start_time := lit "2023-04-05T12:00:00+09:00";
  end_time := lit "2023-04-05T13:00:00+09:00";
  duration := 3600%float;
  caption_text := None;
  is_caption_composited := false;
  is_comment_composited := false;
|}.

(** A 2x1 frame: a red and a green pixel. *)
Definition frame : ImageBitmap :=
  {| bitmap_width := 2; bitmap_height := 1;
     bitmap_data := [255; 0; 0; 255; 0; 255; 0; 255] |}.

(** A 2x1 layer: a half-transparent blue pixel and a transparent one. *)
Definition layer : ImageBitmap :=
  {| bitmap_width := 2; bitmap_height := 1;
     bitmap_data := [0; 0; 255; 128; 0; 0; 0; 0] |}.

Definition comment_data (o : number) : ICaptureCommentData := {|
  container_width := 1%float;
  container_height := 1%float;
  opacity := o;
  comments := [Comment.mk 0%float 1%float (lit "#ffffff") 16%float (lit "www")];
|}.

Definition job (m : Mode) (caption superimpose : option ImageBitmap)
    (comment : option ICaptureCommentData) : ICaptureCompositorOptions :=
  {| mode := m; capture := frame; caption := caption; superimpose := superimpose;
     capture_comment_data := comment; capture_exif_data := exif_data |}.

End Sim.

(** *** Jobs for the runs *)

(** The job of the scenario "mode Both, subtitle present, no superimpose, no
    comments". *)
Definition both_job : ICaptureCompositorOptions :=
  Sim.job Both (Some Sim.layer) None None.

(** A job with every layer, comments at half opacity. *)
Definition full_job : ICaptureCompositorOptions :=
  Sim.job Both (Some Sim.layer) (Some Sim.layer) (Some (Sim.comment_data 0.5%float)).

(** A job with comments at opacity 0 over a superimpose bitmap. *)
Definition faint_job : ICaptureCompositorOptions :=
  Sim.job VideoOnly None (Some Sim.layer) (Some (Sim.comment_data 0%float)).

(** A job with the frame alone. *)
Definition plain_job : ICaptureCompositorOptions :=
  Sim.job VideoOnly None None None.

(** * Properties *)

(** ** What each method leaves behind *)

Section Runs.
Context `{Platform}.

Lemma draw_comment_ops wr hr (cc : OffscreenCanvas) (c : Comment.t) :
  textBaseline (state cc) = lit "top" ->
  globalAlpha (state cc) = 1%float ->
  ops (draw_comment wr hr cc c) = ops cc ++ [comment_op wr hr c].
Proof.
  intros Hb Ha. unfold comment_op. rewrite <- Hb, <- Ha. reflexivity.
Qed.

Lemma draw_comments_ops wr hr (cs : list Comment.t) (cc : OffscreenCanvas) :
  textBaseline (state cc) = lit "top" ->
  globalAlpha (state cc) = 1%float ->
  let cc' := fold_left (draw_comment wr hr) cs cc in
  ops cc' = ops cc ++ map (comment_op wr hr) cs
  /\ width cc' = width cc /\ height cc' = height cc /\ alpha cc' = alpha cc.
Proof.
  revert cc. induction cs as [|c cs IH]; intros cc Hb Ha.
  - cbn [fold_left map]. rewrite app_nil_r. auto.
  - cbn [fold_left map].
    destruct (IH (draw_comment wr hr cc c)) as (Hops & Hw & Hh & Hal); [exact Hb | exact Ha |].
    cbv zeta. rewrite Hops, Hw, Hh, Hal, draw_comment_ops, <- app_assoc by assumption.
    auto.
Qed.

Lemma compositeComments_run (w : World) (data : ICaptureCommentData) (canvas : OffscreenCanvas) :
  capture_comment_data (options w) = Some data ->
  compositeComments canvas w = (w, inr (comments_onto data canvas)).
Proof.
  intros Hd. unfold compositeComments, bind, this_options. rewrite Hd. unfold ret.
  do 2 f_equal.
  set (wr := (number_of_Z (width canvas) / container_width data)%float).
  set (hr := (number_of_Z (height canvas) / container_height data)%float).
  destruct (draw_comments_ops wr hr (comments data)
              (with_state (set_textBaseline (lit "top"))
                 (new_OffscreenCanvas (width canvas) (height canvas) Ctx2D true)))
    as (Hops & Hw & Hh & Hal); [reflexivity | reflexivity |].
  unfold drawImage, emit, as_image, comments_onto, comment_layer. simpl.
  rewrite Hops, Hw, Hh, Hal. reflexivity.
Qed.

#[local] Arguments compositeComments : simpl never.
#[local] Arguments lit : simpl never.

Ltac run_method :=
  unfold async, bind, ret, throw, assert, this_options, is_detached, touch, detach,
    set_is_caption_composited, set_is_comment_composited, update_exif,
    capture_width, capture_height, drawImage_capture,
    transferFromImageBitmap_capture, close_capture;
  cbn -[app].

Lemma compositeInCaptionMode_run (w : World) (c : ImageBitmap) :
  capture_detached w = false ->
  caption (options w) = Some c ->
  async compositeInCaptionMode w =
    ({| options := with_flags (options w) true (negb (is_null (capture_comment_data (options w))));
        capture_detached := false;
        accesses := accesses w ++
          [(CaptionMode, ReadWidth); (CaptionMode, ReadHeight); (CaptionMode, Draw)] |},
     Pending_convertToBlob (caption_canvas (options w) c)).
Proof.
  destruct w as [[m cap c0 s d e] det acc]. simpl. intros -> ->.
  unfold compositeInCaptionMode, caption_canvas, add_comments, add_superimpose, frame_canvas,
    with_flags.
  destruct d as [data|], s as [s|]; run_method; rewrite <- ?app_assoc; cbn [app].
  all: try (rewrite compositeComments_run with (data := data) by reflexivity);
    reflexivity.
Qed.

Lemma compositeInNormalMode_run (w : World) :
  capture_detached w = false ->
  async compositeInNormalMode w =
    ({| options := with_flags (options w) false (negb (is_null (capture_comment_data (options w))));
        capture_detached := false;
        accesses := accesses w ++
          [(NormalMode, ReadWidth); (NormalMode, ReadHeight); (NormalMode, Draw)] |},
     Pending_convertToBlob (normal_canvas (options w))).
Proof.
  destruct w as [[m cap c0 s d e] det acc]. simpl. intros ->.
  unfold compositeInNormalMode, normal_canvas, add_comments, add_superimpose, frame_canvas,
    with_flags.
  destruct d as [data|], s as [s|]; run_method; rewrite <- ?app_assoc; cbn [app].
  all: try (rewrite compositeComments_run with (data := data) by reflexivity);
    reflexivity.
Qed.

Lemma compositeInNormalDirectMode_run (w : World) :
  capture_detached w = false ->
  superimpose (options w) = None ->
  capture_comment_data (options w) = None ->
  async compositeInNormalDirectMode w =
    ({| options := with_flags (options w) false false;
        capture_detached := true;
        accesses := accesses w ++
          [(NormalDirectMode, ReadWidth); (NormalDirectMode, ReadHeight);
           (NormalDirectMode, Transfer); (NormalDirectMode, Close)] |},
     Pending_convertToBlob (direct_canvas (options w))).
Proof.
  destruct w as [[m cap c0 s d e] det acc]. simpl. intros -> -> ->.
  unfold compositeInNormalDirectMode, direct_canvas, with_flags.
  run_method. rewrite <- !app_assoc. reflexivity.
Qed.

(** Once the capture is detached, a method that draws it is rejected: the
    order in which [composite] calls the methods matters. *)
Lemma compositeInCaptionMode_detached (w : World) (c : ImageBitmap) :
  capture_detached w = true ->
  caption (options w) = Some c ->
  snd (async compositeInCaptionMode w) = Rejected InvalidStateError.
Proof.
  destruct w as [o det acc]. simpl. intros -> Hc.
  unfold compositeInCaptionMode. run_method. rewrite Hc.
  destruct (capture_comment_data o); reflexivity.
Qed.

Lemma compositeInNormalMode_detached (w : World) :
  capture_detached w = true ->
  snd (async compositeInNormalMode w) = Rejected InvalidStateError.
Proof.
  destruct w as [o det acc]. simpl. intros ->.
  unfold compositeInNormalMode. run_method.
  destruct (capture_comment_data o); reflexivity.
Qed.

(** X1. The direct method called with a superimpose bitmap or with comment
    data is rejected with an AssertionError before it writes a flag or touches
    the capture. *)
Lemma compositeInNormalDirectMode_precondition (w : World) :
  superimpose (options w) <> None \/ capture_comment_data (options w) <> None ->
  async compositeInNormalDirectMode w = (w, Rejected AssertionError).
Proof.
  destruct w as [o det acc]. simpl. intros Hp.
  unfold compositeInNormalDirectMode. run_method.
  destruct (superimpose o), (capture_comment_data o); try reflexivity.
  destruct Hp as [Hp|Hp]; contradiction.
Qed.

(** *** The event loop *)

Lemma await_resume (w : World) (p : Promise) : await w (resume w p) = await w p.
Proof. destruct p; reflexivity. Qed.

Lemma await_var_resume (w : World) (p : option Promise) :
  await_var w (resume w <$> p) = await_var w p.
Proof. destruct p as [p|]; simpl; [rewrite await_resume|]; reflexivity. Qed.

(** The order in which pending operations complete does not show in what
    [Promise.all] gives. *)
Lemma Promise_all_schedule (schedule : list Production) (w : World) (pc pn : option Promise) :
  Promise_all schedule w pc pn = Promise_all [] w pc pn.
Proof.
  revert pc pn. induction schedule as [|[|] schedule IH]; intros pc pn.
  - reflexivity.
  - unfold Promise_all in *. cbn [event_loop]. rewrite IH. cbn [event_loop].
    rewrite await_var_resume. reflexivity.
  - unfold Promise_all in *. cbn [event_loop]. rewrite IH. cbn [event_loop].
    rewrite await_var_resume. reflexivity.
Qed.

(** *** The orchestrator *)

#[local] Arguments async : simpl never.
#[local] Arguments Promise_all : simpl never.

Lemma composite_run (schedule : list Production) (job : ICaptureCompositorOptions) :
  composite schedule job = (composite_world job, inr (composite_result job)).
Proof.
  destruct job as [m cap c s d e].
  unfold composite, composite_from, new_CaptureCompositor.
  destruct m, c as [c|], s as [s|], d as [d|]; cbn;
    repeat (first
      [ rewrite (compositeInCaptionMode_run _ c) by reflexivity
      | rewrite compositeInNormalMode_run by reflexivity
      | rewrite compositeInNormalDirectMode_run by reflexivity ]; cbn).
  all: rewrite Promise_all_schedule; reflexivity.
Qed.

(** The result of [composite] does not depend on the order of completion. *)
Lemma composite_schedule (schedule : list Production) (job : ICaptureCompositorOptions) :
  composite schedule job = composite [] job.
Proof. rewrite !composite_run. reflexivity. Qed.

End Runs.

(** ** The properties of the specification *)

Section Claims.
Context `{Platform}.

#[local] Arguments async : simpl never.
#[local] Arguments lit : simpl never.

(** C1. For every job and every order of completion, [composite] resolves,
    with the captioned output present iff the mode is CompositingCaption or
    Both and there is a caption, and the normal output present iff the mode is
    VideoOnly or Both, or it is CompositingCaption and there is no caption. *)
Theorem C1_presence_pattern (schedule : list Production) (job : ICaptureCompositorOptions) :
  exists w res,
    composite schedule job = (w, inr res)
    /\ (capture_caption res <> None <->
          (mode job = CompositingCaption \/ mode job = Both) /\ caption job <> None)
    /\ (capture_normal res <> None <->
          (mode job = VideoOnly \/ mode job = Both)
          \/ (mode job = CompositingCaption /\ caption job = None)).
Proof.
  exists (composite_world job), (composite_result job).
  split; [apply composite_run|].
  destruct job as [m cap c s d e].
  destruct m, c as [c|], s as [s|], d as [d|]; cbn; intuition congruence.
Qed.

(** The outputs of a run are exported from the shared record as [composite]
    left it, each from the canvas of its own method. *)
Lemma composite_outputs (schedule : list Production) (job : ICaptureCompositorOptions)
    (w : World) (res : ICaptureCompositorResult) :
  composite schedule job = (w, inr res) ->
  w = composite_world job
  /\ (forall b, capture_normal res = Some b ->
        normal_scheduled job = true
        /\ b = exported (capture_exif_data (options w))
                (if direct_selected job then direct_canvas job else normal_canvas job))
  /\ (forall b, capture_caption res = Some b ->
        exists c, caption job = Some c /\ caption_scheduled job = true
        /\ b = exported (capture_exif_data (options w)) (caption_canvas job c)).
Proof.
  rewrite composite_run. intros [= <- <-]. split; [reflexivity|].
  destruct job as [m cap c s d e].
  split; intros b; destruct m, c as [c|], s as [s|], d as [d|]; cbn; intros Hb;
    try discriminate; injection Hb as <-; eauto.
Qed.



(** C4, amended. [composite] takes the direct method exactly when a normal
    output is due and the job has neither a superimpose bitmap nor comment
    data.  A captioned output may be due in the same run; the caption method
    has then drawn the capture before the direct method transfers it. *)
Theorem C4_direct_selection (schedule : list Production) (job : ICaptureCompositorOptions)
    (w : World) (res : ICaptureCompositorResult) :
  composite schedule job = (w, inr res) ->
  (direct_path_ran w <->
     ((mode job = VideoOnly \/ mode job = Both)
      \/ (mode job = CompositingCaption /\ caption job = None))
     /\ superimpose job = None /\ capture_comment_data job = None)
  /\ (direct_path_ran w -> capture_caption res <> None ->
      exists post,
        accesses w
        = [(CaptionMode, ReadWidth); (CaptionMode, ReadHeight); (CaptionMode, Draw)]
          ++ (NormalDirectMode, ReadWidth) :: (NormalDirectMode, ReadHeight)
          :: (NormalDirectMode, Transfer) :: post).
Proof.
  rewrite composite_run. intros [= <- <-]. unfold direct_path_ran.
  destruct job as [m cap c s d e].
  destruct m, c as [c|], s as [s|], d as [d|]; cbn; split;
    try (intros _ Hc; try (exfalso; apply Hc; reflexivity); eexists; reflexivity);
    try (intros Hr; exfalso; intuition congruence);
    intuition congruence.
Qed.

(** C9. In every run no method is rejected for drawing a detached capture;
    at most one method transfers the capture; and the transfer is by the
    direct method, followed by nothing but that method closing the capture:
    every read or draw of the capture, by any method, comes before it. *)
Theorem C9_frame_consumption (schedule : list Production) (job : ICaptureCompositorOptions)
    (w : World) (r : Error + ICaptureCompositorResult) :
  composite schedule job = (w, r) ->
  (exists res, r = inr res)
  /\ (length (transfers (accesses w)) <= 1)%nat
  /\ (forall pre p post,
        accesses w = pre ++ (p, Transfer) :: post ->
        p = NormalDirectMode /\ post = [(NormalDirectMode, Close)]).
Proof.
  rewrite composite_run. intros [= <- <-].
  split; [eexists; reflexivity|].
  destruct job as [m cap c s d e].
  destruct m, c as [c|], s as [s|], d as [d|]; cbn; (split; [lia|]);
    intros pre p post Hacc;
    repeat (destruct pre as [|? pre]; cbn in Hacc; try discriminate;
            try (injection Hacc as <- <-; auto; fail);
            injection Hacc as _ Hacc).
Qed.

(** C5. [compositeComments] draws the comments, in their order, on a
    transparent canvas of the target's size: each text at
    [(left * width_ratio, top * height_ratio)] with baseline [top], in a bold
    font of [font_size * width_ratio] px, filled with the comment's colour,
    with a shadow offset by [1.2 * width_ratio] both ways, blurred by
    [4 * width_ratio], coloured [rgba(0, 0, 0, 0.9)]; the ratios are the
    target's width and height over the container's. *)
Theorem C5_comment_rendering (w : World) (data : ICaptureCommentData) (canvas : OffscreenCanvas) :
  capture_comment_data (options w) = Some data ->
  let width_ratio := (number_of_Z (width canvas) / container_width data)%float in
  let height_ratio := (number_of_Z (height canvas) / container_height data)%float in
  exists canvas' st,
    compositeComments canvas w = (w, inr canvas')
    /\ ops canvas' = ops canvas ++
         [DrawImage st
            (Layer (width canvas) (height canvas) true
               (map (fun c =>
                  FillText
                    {| fillStyle := Comment.color c;
                       font := lit "bold "
                               ++ Number_toString (Comment.font_size c * width_ratio)%float
                               ++ lit "px 'Open Sans','Hiragino Sans','Noto Sans JP',sans-serif";
                       textBaseline := lit "top";
                       shadowOffsetX := (1.2 * width_ratio)%float;
                       shadowOffsetY := (1.2 * width_ratio)%float;
                       shadowBlur := (4 * width_ratio)%float;
                       shadowColor := lit "rgba(0, 0, 0, 0.9)";
                       globalAlpha := 1%float |}
                    (Comment.text c)
                    (Comment.left c * width_ratio)%float
                    (Comment.top c * height_ratio)%float)
                  (comments data)))
            0 0 (width canvas) (height canvas)].
Proof.
  intros Hd wr hr. eexists _, _. split.
  - apply compositeComments_run. exact Hd.
  - reflexivity.
Qed.

Lemma rasterize_emit (op : DrawOp) (canvas : OffscreenCanvas) (st : Context2D) :
  rasterize
    {| width := width canvas; height := height canvas; kind := kind canvas;
       alpha := alpha canvas; state := st; ops := ops canvas ++ [op] |}
  = paint op (rasterize canvas).
Proof. unfold rasterize. cbn [ops width height alpha]. apply fold_left_app. Qed.

(** C6. [compositeComments] merges the comment canvas with one [drawImage],
    issued under the comment data's opacity as global alpha; the texts on the
    comment canvas are all drawn at global alpha 1.  With opacity 0 the target
    holds the pixels it held before; with opacity 1 the merge has the global
    alpha every other layer is drawn with. *)
Theorem C6_comment_opacity (w : World) (data : ICaptureCommentData) (canvas : OffscreenCanvas) :
  capture_comment_data (options w) = Some data ->
  exists canvas' layer_ops,
    compositeComments canvas w = (w, inr canvas')
    /\ ops canvas' = ops canvas ++
         [DrawImage (set_globalAlpha (opacity data) (state canvas))
            (Layer (width canvas) (height canvas) true layer_ops)
            0 0 (width canvas) (height canvas)]
    /\ Forall (fun op => exists st text x y,
                 op = FillText st text x y /\ globalAlpha st = 1%float) layer_ops
    /\ length layer_ops = length (comments data)
    /\ (opacity data = 0%float -> rasterize canvas' = rasterize canvas)
    /\ (opacity data = 1%float ->
        globalAlpha (set_globalAlpha (opacity data) (state canvas))
        = globalAlpha default_state).
Proof.
  intros Hd. eexists _, _. split; [apply compositeComments_run; exact Hd|].
  split; [reflexivity|].
  split; [|split; [|split]].
  - induction (comments data) as [|c cs IH]; cbn [map]; constructor;
      [unfold comment_op; eauto 6 | exact IH].
  - apply length_map.
  - intros H0. unfold comments_onto. rewrite rasterize_emit. cbn [paint].
    apply paint_image_transparent. cbn. exact H0.
  - intros H1. cbn. exact H1.
Qed.

(** The EXIF block built from a record [d]. *)
Lemma exif_of_tags (d : ICaptureExifData) :
  let datetime := dayjs_format (captured_at d) (lit "YYYY:MM:DD HH:mm:ss") in
  (zeroth (exif_of d) !! TagValues.ImageIFD.XResolution = Some (EArr [72; 1])
   /\ zeroth (exif_of d) !! TagValues.ImageIFD.YResolution = Some (EArr [72; 1])
   /\ zeroth (exif_of d) !! TagValues.ImageIFD.ResolutionUnit = Some (ENum 2)
   /\ zeroth (exif_of d) !! TagValues.ImageIFD.YCbCrPositioning = Some (ENum 1)
   /\ zeroth (exif_of d) !! TagValues.ImageIFD.DateTime = Some (EStr datetime)
   /\ zeroth (exif_of d) !! TagValues.ImageIFD.Software
      = Some (EStr (lit "KonomiTV version " ++ Utils_version))
   /\ zeroth (exif_of d) !! TagValues.ImageIFD.XPComment
      = Some (EArr (Buffer_from_ucs2 (JSON_stringify d)))
   /\ zeroth (exif_of d) !! TagValues.ImageIFD.Orientation = None
   /\ size (zeroth (exif_of d)) = 7%nat)
  /\ (Exif (exif_of d) !! TagValues.ExifIFD.ExifVersion = Some (EStr (lit "0230"))
      /\ Exif (exif_of d) !! TagValues.ExifIFD.ComponentsConfiguration
         = Some (EStr [1; 2; 3; 0])
      /\ Exif (exif_of d) !! TagValues.ExifIFD.FlashpixVersion = Some (EStr (lit "0100"))
      /\ Exif (exif_of d) !! TagValues.ExifIFD.ColorSpace = Some (ENum 1)
      /\ Exif (exif_of d) !! TagValues.ExifIFD.DateTimeOriginal = Some (EStr datetime)
      /\ Exif (exif_of d) !! TagValues.ExifIFD.DateTimeDigitized = Some (EStr datetime)
      /\ size (Exif (exif_of d)) = 6%nat).
Proof. repeat split; vm_compute; reflexivity. Qed.

(** C7, amended. Every output of a run is the encoded canvas with the dumped
    EXIF block of the shared record inserted.  The ['0th'] group of the block
    holds X and Y resolution 72/1, resolution unit 2, YCbCr positioning 1
    (there is no orientation tag), the capture time formatted with
    [YYYY:MM:DD HH:mm:ss] as DateTime, the software string
    [KonomiTV version <version>], and the JSON text of the record in UTF-16 as
    XPComment; the ['Exif'] group holds Exif version 0230, Flashpix version
    0100, the components configuration 1, 2, 3, 0, colour space 1, and the
    same time as DateTimeOriginal and DateTimeDigitized. *)
Theorem C7_exif_block (schedule : list Production) (job : ICaptureCompositorOptions)
    (w : World) (res : ICaptureCompositorResult) (b : Blob) :
  composite schedule job = (w, inr res) ->
  capture_normal res = Some b \/ capture_caption res = Some b ->
  let d := capture_exif_data (options w) in
  let datetime :=
    dayjs_format (captured_at (capture_exif_data job)) (lit "YYYY:MM:DD HH:mm:ss") in
  exists canvas : OffscreenCanvas,
    blob_bytes b
       = map (fun c => Z.land c 255)
           (piexif_insert (piexif_dump (exif_of d))
              (blob_bytes (convertToBlob canvas (lit "image/jpeg") 0.99%float)))
    /\ zeroth (exif_of d) !! TagValues.ImageIFD.XResolution = Some (EArr [72; 1])
    /\ zeroth (exif_of d) !! TagValues.ImageIFD.YResolution = Some (EArr [72; 1])
    /\ zeroth (exif_of d) !! TagValues.ImageIFD.ResolutionUnit = Some (ENum 2)
    /\ zeroth (exif_of d) !! TagValues.ImageIFD.YCbCrPositioning = Some (ENum 1)
    /\ zeroth (exif_of d) !! TagValues.ImageIFD.Orientation = None
    /\ zeroth (exif_of d) !! TagValues.ImageIFD.DateTime = Some (EStr datetime)
    /\ zeroth (exif_of d) !! TagValues.ImageIFD.Software
       = Some (EStr (lit "KonomiTV version " ++ Utils_version))
    /\ zeroth (exif_of d) !! TagValues.ImageIFD.XPComment
       = Some (EArr (Buffer_from_ucs2 (JSON_stringify d)))
    /\ Exif (exif_of d) !! TagValues.ExifIFD.ExifVersion = Some (EStr (lit "0230"))
    /\ Exif (exif_of d) !! TagValues.ExifIFD.FlashpixVersion = Some (EStr (lit "0100"))
    /\ Exif (exif_of d) !! TagValues.ExifIFD.ComponentsConfiguration
       = Some (EStr [1; 2; 3; 0])
    /\ Exif (exif_of d) !! TagValues.ExifIFD.ColorSpace = Some (ENum 1)
    /\ Exif (exif_of d) !! TagValues.ExifIFD.DateTimeOriginal = Some (EStr datetime)
    /\ Exif (exif_of d) !! TagValues.ExifIFD.DateTimeDigitized = Some (EStr datetime).
Proof.
  intros Hrun Hb.
  destruct (composite_outputs _ _ _ _ Hrun) as (-> & Hn & Hc).
  assert (Hex : exists canvas, b = exported (capture_exif_data (options (composite_world job))) canvas).
  { destruct Hb as [Hb|Hb].
    - destruct (Hn b Hb) as (_ & ->). eexists. reflexivity.
    - destruct (Hc b Hb) as (c & _ & _ & ->). eexists. reflexivity. }
  destruct Hex as (canvas & ->).
  exists canvas.
  pose proof (exif_of_tags (capture_exif_data (options (composite_world job)))) as Ht.
  cbv zeta in *. split; [reflexivity|]. cbn [composite_world options with_flags
    capture_exif_data captured_at] in *. tauto.
Qed.

(** C8. On a job with neither a superimpose bitmap nor comment data, the
    direct method and the full method hand canvases with the same pixels to
    the encoder and leave the same record, so they resolve to the same blob. *)
Theorem C8_direct_equals_full (w : World) :
  capture_detached w = false ->
  superimpose (options w) = None ->
  capture_comment_data (options w) = None ->
  exists w1 w2 canvas1 canvas2 blob,
    async compositeInNormalDirectMode w = (w1, Pending_convertToBlob canvas1)
    /\ async compositeInNormalMode w = (w2, Pending_convertToBlob canvas2)
    /\ rasterize canvas1 = rasterize canvas2
    /\ await w1 (Pending_convertToBlob canvas1) = inr blob
    /\ await w2 (Pending_convertToBlob canvas2) = inr blob.
Proof.
  intros Hlive Hs Hd.
  rewrite compositeInNormalDirectMode_run, compositeInNormalMode_run by assumption.
  assert (Hpx : rasterize (direct_canvas (options w)) = rasterize (normal_canvas (options w))).
  { unfold normal_canvas, add_comments, add_superimpose. rewrite Hs, Hd.
    unfold rasterize, direct_canvas, frame_canvas. cbn.
    symmetry. apply paint_image_native. }
  eexists _, _, _, _, _. split; [reflexivity|]. split; [reflexivity|].
  split; [exact Hpx|]. split; [reflexivity|].
  unfold await. cbn [options]. rewrite Hd. cbn [is_null negb].
  unfold convertToBlob. rewrite Hpx.
  unfold normal_canvas, add_comments, add_superimpose. rewrite Hs, Hd. reflexivity.
Qed.

End Claims.

(** ** Further properties of the worker *)

Section More.
Context `{Platform}.

#[local] Arguments async : simpl never.
#[local] Arguments lit : simpl never.
#[local] Arguments compositeComments : simpl never.
#[local] Arguments Promise_all : simpl never.

Ltac run_method :=
  unfold async, bind, ret, throw, assert, this_options, is_detached, touch, detach,
    set_is_caption_composited, set_is_comment_composited, update_exif,
    capture_width, capture_height, drawImage_capture,
    transferFromImageBitmap_capture, close_capture;
  cbn -[app].

(** *** Failed preconditions *)

(** X2. Called without a caption, the caption method is rejected with an
    AssertionError before it writes a flag or touches the capture. *)
Theorem caption_method_asserts (w : World) :
  caption (options w) = None ->
  async compositeInCaptionMode w = (w, Rejected AssertionError).
Proof.
  destruct w as [[m cap c s d e] det acc]. cbn. intros ->.
  unfold compositeInCaptionMode. run_method. reflexivity.
Qed.

(** X3. Called without comment data, [compositeComments] throws an
    AssertionError and draws nothing. *)
Theorem compositeComments_asserts (w : World) (canvas : OffscreenCanvas) :
  capture_comment_data (options w) = None ->
  compositeComments canvas w = (w, inl AssertionError).
Proof.
  intros Hd. unfold compositeComments, bind, this_options, throw. rewrite Hd. reflexivity.
Qed.

(** X4. A full method called when the capture is detached is rejected with
    an InvalidStateError at its first draw; by then it has overwritten both
    flags of the shared record and read the size of the capture. *)
Theorem full_methods_reject_detached (w : World) :
  capture_detached w = true ->
  async compositeInNormalMode w
  = ({| options := with_flags (options w) false
                     (negb (is_null (capture_comment_data (options w))));
        capture_detached := true;
        accesses := accesses w ++
          [(NormalMode, ReadWidth); (NormalMode, ReadHeight); (NormalMode, Draw)] |},
     Rejected InvalidStateError)
  /\ forall c, caption (options w) = Some c ->
     async compositeInCaptionMode w
     = ({| options := with_flags (options w) true
                        (negb (is_null (capture_comment_data (options w))));
           capture_detached := true;
           accesses := accesses w ++
             [(CaptionMode, ReadWidth); (CaptionMode, ReadHeight); (CaptionMode, Draw)] |},
        Rejected InvalidStateError).
Proof.
  destruct w as [[m cap c0 s d e] det acc]. cbn. intros ->. split.
  - unfold compositeInNormalMode, with_flags.
    destruct d; run_method; rewrite <- ?app_assoc; reflexivity.
  - intros c ->. unfold compositeInCaptionMode, with_flags.
    destruct d; run_method; rewrite <- ?app_assoc; reflexivity.
Qed.

(** X5. The two methods of a run in mode Both do not commute: after the
    direct method the caption method is rejected, while after the caption
    method the direct method still reaches [convertToBlob]. *)
Theorem direct_method_must_run_last (w : World) (c : ImageBitmap) :
  capture_detached w = false ->
  caption (options w) = Some c ->
  superimpose (options w) = None ->
  capture_comment_data (options w) = None ->
  (exists canvas,
     snd (async compositeInNormalDirectMode w) = Pending_convertToBlob canvas)
  /\ snd (async compositeInCaptionMode (fst (async compositeInNormalDirectMode w)))
     = Rejected InvalidStateError
  /\ (exists canvas,
        snd (async compositeInCaptionMode w) = Pending_convertToBlob canvas)
  /\ (exists canvas,
        snd (async compositeInNormalDirectMode (fst (async compositeInCaptionMode w)))
        = Pending_convertToBlob canvas).
Proof.
  intros Hlive Hc Hs Hd.
  rewrite compositeInNormalDirectMode_run by assumption.
  rewrite (compositeInCaptionMode_run w c) by assumption.
  cbn [fst snd]. split; [eauto|]. split.
  - apply (compositeInCaptionMode_detached _ c); [reflexivity | exact Hc].
  - split; [eauto|]. rewrite compositeInNormalDirectMode_run; cbn; eauto.
Qed.

(** *** What is drawn, and in which order *)

(** X6. The caption method draws, on an opaque canvas of the capture's size
    and each stretched over the whole canvas: the capture, the superimpose
    bitmap if there is one, the caption, and last the comment canvas if there
    is comment data; the bitmaps under the default state, the comments under
    their opacity. *)
Theorem caption_canvas_layers (w : World) (c : ImageBitmap) :
  capture_detached w = false ->
  caption (options w) = Some c ->
  let o := options w in
  let W := bitmap_width (capture o) in
  let H' := bitmap_height (capture o) in
  exists canvas,
    snd (async compositeInCaptionMode w) = Pending_convertToBlob canvas
    /\ width canvas = W /\ height canvas = H'
    /\ kind canvas = Ctx2D /\ alpha canvas = false
    /\ ops canvas
       = drawn_layers W H'
           ([(default_state, Bitmap (capture o))]
            ++ match superimpose o with
               | Some s => [(default_state, Bitmap s)]
               | None => []
               end
            ++ [(default_state, Bitmap c)]
            ++ match capture_comment_data o with
               | Some data =>
                   [(set_globalAlpha (opacity data) default_state, comment_layer data W H')]
               | None => []
               end).
Proof.
  intros Hlive Hc. cbv zeta.
  rewrite (compositeInCaptionMode_run w c) by assumption. cbn [snd].
  eexists. split; [reflexivity|].
  unfold caption_canvas, add_comments, add_superimpose, frame_canvas.
  destruct (superimpose (options w)), (capture_comment_data (options w));
    cbn; repeat split; reflexivity.
Qed.

(** X7. The full normal method draws the same layers in the same order but
    for the caption: the capture, the superimpose bitmap if there is one, and
    the comment canvas if there is comment data. *)
Theorem normal_canvas_layers (w : World) :
  capture_detached w = false ->
  let o := options w in
  let W := bitmap_width (capture o) in
  let H' := bitmap_height (capture o) in
  exists canvas,
    snd (async compositeInNormalMode w) = Pending_convertToBlob canvas
    /\ width canvas = W /\ height canvas = H'
    /\ kind canvas = Ctx2D /\ alpha canvas = false
    /\ ops canvas
       = drawn_layers W H'
           ([(default_state, Bitmap (capture o))]
            ++ match superimpose o with
               | Some s => [(default_state, Bitmap s)]
               | None => []
               end
            ++ match capture_comment_data o with
               | Some data =>
                   [(set_globalAlpha (opacity data) default_state, comment_layer data W H')]
               | None => []
               end).
Proof.
  intros Hlive. cbv zeta.
  rewrite compositeInNormalMode_run by assumption. cbn [snd].
  eexists. split; [reflexivity|].
  unfold normal_canvas, add_comments, add_superimpose, frame_canvas.
  destruct (superimpose (options w)), (capture_comment_data (options w));
    cbn; repeat split; reflexivity.
Qed.

(** X12. The direct method draws nothing: on a [bitmaprenderer] canvas of
    the capture's size its one command is the transfer of the capture.  It
    leaves both flags false and the capture detached, having read the
    capture's size, transferred it and closed it, in this order. *)
Theorem direct_canvas_transfer (w : World) :
  capture_detached w = false ->
  superimpose (options w) = None ->
  capture_comment_data (options w) = None ->
  exists w' canvas,
    async compositeInNormalDirectMode w = (w', Pending_convertToBlob canvas)
    /\ width canvas = bitmap_width (capture (options w))
    /\ height canvas = bitmap_height (capture (options w))
    /\ kind canvas = CtxBitmapRenderer /\ alpha canvas = false
    /\ ops canvas = [TransferFromImageBitmap (capture (options w))]
    /\ is_caption_composited (capture_exif_data (options w')) = false
    /\ is_comment_composited (capture_exif_data (options w')) = false
    /\ capture_detached w' = true
    /\ accesses w' = accesses w ++
         [(NormalDirectMode, ReadWidth); (NormalDirectMode, ReadHeight);
          (NormalDirectMode, Transfer); (NormalDirectMode, Close)].
Proof.
  intros Hlive Hs Hd.
  rewrite compositeInNormalDirectMode_run by assumption.
  eexists _, _. split; [reflexivity|]. cbn. repeat split; reflexivity.
Qed.

(** X15. [compositeComments] changes nothing of the target but this: one
    command is added after those already there, and the global alpha of the
    target's context is left at the opacity of the comments (it is not put
    back). *)
Theorem compositeComments_frame (w : World) (data : ICaptureCommentData)
    (canvas : OffscreenCanvas) :
  capture_comment_data (options w) = Some data ->
  exists canvas' op,
    compositeComments canvas w = (w, inr canvas')
    /\ ops canvas' = ops canvas ++ [op]
    /\ width canvas' = width canvas /\ height canvas' = height canvas
    /\ kind canvas' = kind canvas /\ alpha canvas' = alpha canvas
    /\ globalAlpha (state canvas') = opacity data
    /\ fillStyle (state canvas') = fillStyle (state canvas)
    /\ font (state canvas') = font (state canvas)
    /\ textBaseline (state canvas') = textBaseline (state canvas)
    /\ shadowOffsetX (state canvas') = shadowOffsetX (state canvas)
    /\ shadowOffsetY (state canvas') = shadowOffsetY (state canvas)
    /\ shadowBlur (state canvas') = shadowBlur (state canvas)
    /\ shadowColor (state canvas') = shadowColor (state canvas).
Proof.
  intros Hd. eexists _, _. split; [apply compositeComments_run; exact Hd|].
  cbn. repeat split; reflexivity.
Qed.

(** *** Whole runs *)

(** [composite] called in any state in which the capture is live. *)
Lemma composite_from_run (schedule : list Production) (w : World) :
  capture_detached w = false ->
  composite_from schedule w = (after_composite w, inr (composite_result (options w))).
Proof.
  destruct w as [[m cap c s d e] det acc]. cbn. intros ->.
  unfold composite_from, after_composite.
  destruct m, c as [c|], s as [s|], d as [d|]; cbn;
    repeat (first
      [ rewrite (compositeInCaptionMode_run _ c) by reflexivity
      | rewrite compositeInNormalMode_run by reflexivity
      | rewrite compositeInNormalDirectMode_run by reflexivity ]; cbn).
  all: rewrite Promise_all_schedule, <- ?app_assoc, ?app_nil_r; reflexivity.
Qed.

Lemma compositeInNormalMode_detached_run (w : World) :
  capture_detached w = true ->
  async compositeInNormalMode w
  = ({| options := with_flags (options w) false
                     (negb (is_null (capture_comment_data (options w))));
        capture_detached := true;
        accesses := accesses w ++
          [(NormalMode, ReadWidth); (NormalMode, ReadHeight); (NormalMode, Draw)] |},
     Rejected InvalidStateError).
Proof.
  destruct w as [[m cap c0 s d e] det acc]. cbn. intros ->.
  unfold compositeInNormalMode, with_flags.
  destruct d; run_method; rewrite <- ?app_assoc; reflexivity.
Qed.

Lemma compositeInCaptionMode_detached_run (w : World) (c : ImageBitmap) :
  capture_detached w = true ->
  caption (options w) = Some c ->
  async compositeInCaptionMode w
  = ({| options := with_flags (options w) true
                     (negb (is_null (capture_comment_data (options w))));
        capture_detached := true;
        accesses := accesses w ++
          [(CaptionMode, ReadWidth); (CaptionMode, ReadHeight); (CaptionMode, Draw)] |},
     Rejected InvalidStateError).
Proof.
  destruct w as [[m cap c0 s d e] det acc]. cbn. intros -> ->.
  unfold compositeInCaptionMode, with_flags.
  destruct d; run_method; rewrite <- ?app_assoc; reflexivity.
Qed.

Lemma compositeInNormalDirectMode_detached_run (w : World) :
  capture_detached w = true ->
  superimpose (options w) = None ->
  capture_comment_data (options w) = None ->
  async compositeInNormalDirectMode w
  = ({| options := with_flags (options w) false false;
        capture_detached := true;
        accesses := accesses w ++
          [(NormalDirectMode, ReadWidth); (NormalDirectMode, ReadHeight);
           (NormalDirectMode, Transfer)] |},
     Rejected InvalidStateError).
Proof.
  destruct w as [[m cap c0 s d e] det acc]. cbn. intros -> -> ->.
  unfold compositeInNormalDirectMode, with_flags.
  run_method. rewrite <- ?app_assoc. reflexivity.
Qed.

(** [composite] called when the capture is detached. *)
Lemma composite_from_detached (schedule : list Production) (w : World) :
  capture_detached w = true ->
  snd (composite_from schedule w) = inl InvalidStateError.
Proof.
  destruct w as [[m cap c s d e] det acc]. cbn. intros ->.
  unfold composite_from.
  destruct m, c as [c|], s as [s|], d as [d|]; cbn;
    repeat (first
      [ rewrite (compositeInCaptionMode_detached_run _ c) by reflexivity
      | rewrite compositeInNormalMode_detached_run by reflexivity
      | rewrite compositeInNormalDirectMode_detached_run by reflexivity ]; cbn).
  all: rewrite Promise_all_schedule; reflexivity.
Qed.

(** X16. [composite] cannot be called twice on a worker whose first run took
    the direct path: the capture is gone, and the second call is rejected with
    an InvalidStateError whatever completes when. *)
Theorem second_call_after_direct (schedule schedule' : list Production)
    (job : ICaptureCompositorOptions) (w : World) (r : Error + ICaptureCompositorResult) :
  composite schedule job = (w, r) ->
  direct_path_ran w ->
  snd (composite_from schedule' w) = inl InvalidStateError.
Proof.
  rewrite composite_run. intros [= <- <-] Hran.
  apply composite_from_detached.
  destruct job as [m cap c s d e]. unfold direct_path_ran in Hran.
  destruct m, c as [c|], s as [s|], d as [d|]; cbn in *; try reflexivity;
    exfalso; intuition congruence.
Qed.

(** X17. After a run that did not take the direct path the capture is still
    live, no method has transferred or closed it, and a second call of
    [composite] on the same worker resolves to the result of the first. *)
Theorem second_call_without_direct (schedule schedule' : list Production)
    (job : ICaptureCompositorOptions) (w : World) (r : Error + ICaptureCompositorResult) :
  composite schedule job = (w, r) ->
  ~ direct_path_ran w ->
  capture_detached w = false
  /\ (forall p, ~ In (p, Transfer) (accesses w) /\ ~ In (p, Close) (accesses w))
  /\ snd (composite_from schedule' w) = r.
Proof.
  rewrite composite_run. intros [= <- <-] Hran.
  destruct job as [m cap c s d e]. unfold direct_path_ran in Hran.
  destruct m, c as [c|], s as [s|], d as [d|]; cbn in Hran;
    try (exfalso; apply Hran; auto 10; fail);
    (split; [reflexivity|]);
    (split; [intros p; cbn; intuition congruence|]);
    rewrite composite_from_run by reflexivity; reflexivity.
Qed.

(** X9. The two flags of the job's record are not read: a job gives the same
    result whatever values they come with. *)
Theorem input_flags_ignored (schedule schedule' : list Production)
    (job : ICaptureCompositorOptions) (caption_flag comment_flag : bool) :
  snd (composite schedule (with_flags job caption_flag comment_flag))
  = snd (composite schedule' job).
Proof. rewrite !composite_run. reflexivity. Qed.

(** X10. A run changes nothing of [this.options] but the two flags: the
    layers, the mode and the eleven other fields of the EXIF record are
    afterwards what the job gave. *)
Theorem record_kept (schedule : list Production) (job : ICaptureCompositorOptions) :
  let o := options (fst (composite schedule job)) in
  let d := capture_exif_data o in
  let d0 := capture_exif_data job in
  mode o = mode job /\ capture o = capture job /\ caption o = caption job
  /\ superimpose o = superimpose job
  /\ capture_comment_data o = capture_comment_data job
  /\ captured_at d = captured_at d0
  /\ captured_playback_position d = captured_playback_position d0
  /\ network_id d = network_id d0 /\ service_id d = service_id d0
  /\ event_id d = event_id d0
  /\ title d = title d0 /\ description d = description d0
  /\ start_time d = start_time d0 /\ end_time d = end_time d0
  /\ duration d = duration d0 /\ caption_text d = caption_text d0.
Proof. rewrite composite_run. cbn. repeat split; reflexivity. Qed.

(** X11. The record a captioned output is exported from says
    [is_caption_composited] only in mode CompositingCaption; the record a
    normal output is exported from never says it. *)
Theorem caption_flag_by_mode (schedule : list Production) (job : ICaptureCompositorOptions)
    (w : World) (res : ICaptureCompositorResult) :
  composite schedule job = (w, inr res) ->
  let d := capture_exif_data (options w) in
  (forall b, capture_caption res = Some b ->
     embeds b d /\ (is_caption_composited d = true <-> mode job = CompositingCaption))
  /\ (forall b, capture_normal res = Some b ->
      embeds b d /\ is_caption_composited d = false).
Proof.
  intros Hrun. cbv zeta.
  destruct (composite_outputs _ _ _ _ Hrun) as (-> & Hn & Hc).
  split; intros b Hb.
  - destruct (Hc b Hb) as (c & Hcap & Hsched & ->). split; [eexists; reflexivity|].
    destruct job as [m cap c0 s d e]. cbn in Hcap. subst c0.
    destruct m; cbn in *; try discriminate; intuition congruence.
  - destruct (Hn b Hb) as (Hsched & ->). split; [eexists; reflexivity|].
    cbn. rewrite Hsched. reflexivity.
Qed.

(** X13. In mode VideoOnly the caption is not used: the result is the one
    the job gives without it. *)
Theorem VideoOnly_ignores_caption (schedule schedule' : list Production)
    (cap : ImageBitmap) (c s : option ImageBitmap) (d : option ICaptureCommentData)
    (e : ICaptureExifData) :
  snd (composite schedule
         {| mode := VideoOnly; capture := cap; caption := c; superimpose := s;
            capture_comment_data := d; capture_exif_data := e |})
  = snd (composite schedule'
           {| mode := VideoOnly; capture := cap; caption := None; superimpose := s;
              capture_comment_data := d; capture_exif_data := e |}).
Proof.
  rewrite !composite_run. destruct c, s, d; reflexivity.
Qed.

(** X14. Without a caption the mode makes no difference: every mode gives
    the result of VideoOnly. *)
Theorem modes_agree_without_caption (schedule schedule' : list Production) (m m' : Mode)
    (cap : ImageBitmap) (s : option ImageBitmap) (d : option ICaptureCommentData)
    (e : ICaptureExifData) :
  snd (composite schedule
         {| mode := m; capture := cap; caption := None; superimpose := s;
            capture_comment_data := d; capture_exif_data := e |})
  = snd (composite schedule'
           {| mode := m'; capture := cap; caption := None; superimpose := s;
              capture_comment_data := d; capture_exif_data := e |}).
Proof.
  rewrite !composite_run. destruct m, m', s, d; reflexivity.
Qed.

(** *** Bytes *)

Lemma land_255 (c : Z) : Z.land c 255 = c mod 256.
Proof. change 255 with (Z.ones 8). rewrite Z.land_ones by lia. reflexivity. Qed.

Lemma land_255_range (c : Z) : 0 <= Z.land c 255 < 256.
Proof. rewrite land_255. apply Z.mod_pos_bound. lia. Qed.

Lemma land_255_byte (c : Z) : 0 <= c < 256 -> Z.land c 255 = c.
Proof. intros Hc. rewrite land_255. apply Z.mod_small. exact Hc. Qed.

(** X8. Every output of a run has type [image/jpeg], and its bytes are
    numbers from 0 to 255. *)
Theorem outputs_are_jpeg_bytes (schedule : list Production) (job : ICaptureCompositorOptions)
    (w : World) (res : ICaptureCompositorResult) (b : Blob) :
  composite schedule job = (w, inr res) ->
  capture_normal res = Some b \/ capture_caption res = Some b ->
  blob_type b = lit "image/jpeg"
  /\ Forall (fun x => 0 <= x < 256) (blob_bytes b).
Proof.
  intros Hrun Hb.
  destruct (composite_outputs _ _ _ _ Hrun) as (_ & Hn & Hc).
  assert (Hex : exists d canvas, b = exported d canvas).
  { destruct Hb as [Hb|Hb].
    - destruct (Hn b Hb) as (_ & ->). eauto.
    - destruct (Hc b Hb) as (c & _ & _ & ->). eauto. }
  destruct Hex as (d & canvas & ->). split; [reflexivity|].
  unfold exported, setEXIFDataToCapture, setEXIFDataToCapture_insert. cbn [blob_bytes].
  apply Forall_forall. intros x Hx. apply list_elem_of_In, in_map_iff in Hx as (c & <- & _).
  apply land_255_range.
Qed.

(** X19. When the binary string [piexif.insert] returns is made of bytes,
    [setEXIFDataToCapture] puts exactly that string into the blob it returns,
    under the type of the blob it was given. *)
Theorem spliced_string_is_kept (exif_string : jsstring) (blob : Blob) :
  Forall (fun c => 0 <= c < 256) (piexif_insert exif_string (blob_bytes blob)) ->
  blob_bytes (setEXIFDataToCapture_insert exif_string blob)
  = piexif_insert exif_string (blob_bytes blob)
  /\ blob_type (setEXIFDataToCapture_insert exif_string blob) = blob_type blob.
Proof.
  intros Hbytes. split; [|reflexivity].
  unfold setEXIFDataToCapture_insert, readAsBinaryString. cbn [blob_bytes].
  induction Hbytes as [|c l Hc _ IH]; cbn [map]; [reflexivity|].
  rewrite land_255_byte, IH by exact Hc. reflexivity.
Qed.

Lemma ucs2_unit (c : Z) :
  0 <= c < 65536 -> Z.land c 255 + 256 * Z.land (Z.shiftr c 8) 255 = c.
Proof.
  intros Hc. rewrite !land_255, Z.shiftr_div_pow2 by lia. change (2 ^ 8) with 256.
  rewrite (Z.mod_small (c / 256)).
  - rewrite Z.add_comm. symmetry. apply Z.div_mod. lia.
  - split; [apply Z.div_pos; lia | apply Z.div_lt_upper_bound; lia].
Qed.

Lemma ucs2_decode_encode (s : jsstring) :
  Forall (fun c => 0 <= c < 65536) s -> ucs2_decode (Buffer_from_ucs2 s) = s.
Proof.
  induction 1 as [|c s Hc _ IH]; [reflexivity|].
  cbn [Buffer_from_ucs2 flat_map app ucs2_decode].
  fold (Buffer_from_ucs2 s). rewrite ucs2_unit, IH by exact Hc. reflexivity.
Qed.

Lemma Buffer_from_ucs2_length (s : jsstring) :
  length (Buffer_from_ucs2 s) = (2 * length s)%nat.
Proof.
  induction s as [|c s IH]; [reflexivity|].
  cbn [Buffer_from_ucs2 flat_map app length]. fold (Buffer_from_ucs2 s).
  rewrite IH. lia.
Qed.

Lemma Buffer_from_ucs2_bytes (s : jsstring) :
  Forall (fun x => 0 <= x < 256) (Buffer_from_ucs2 s).
Proof.
  induction s as [|c s IH]; [constructor|].
  cbn [Buffer_from_ucs2 flat_map app]. fold (Buffer_from_ucs2 s).
  repeat (constructor; [apply land_255_range|]). exact IH.
Qed.

(** X18. The XPComment tag of the block built from a record holds two bytes
    for each code unit of the record's JSON text, and reading the bytes two
    by two, low byte first, gives the text back. *)
Theorem XPComment_round_trip (d : ICaptureExifData) :
  Forall (fun c => 0 <= c < 65536) (JSON_stringify d) ->
  exists bytes,
    zeroth (exif_of d) !! TagValues.ImageIFD.XPComment = Some (EArr bytes)
    /\ ucs2_decode bytes = JSON_stringify d
    /\ length bytes = (2 * length (JSON_stringify d))%nat
    /\ Forall (fun x => 0 <= x < 256) bytes.
Proof.
  intros Hunits. exists (Buffer_from_ucs2 (JSON_stringify d)).
  split; [vm_compute; reflexivity|].
  split; [apply ucs2_decode_encode; exact Hunits|].
  split; [apply Buffer_from_ucs2_length | apply Buffer_from_ucs2_bytes].
Qed.

End More.

(** ** Runs on the software platform *)

#[local] Existing Instance Sim.platform.

(** C2, at the job where the code departs from it.  In mode Both with a
    caption, whatever the order of completion, the captioned output is
    exported from a record whose [is_caption_composited] is false, and the
    JSON text in its bytes says so. *)
Theorem C2_captioned_flag_in_Both (schedule : list Production) :
  exists w normal captioned,
    composite schedule both_job
      = (w, inr {| capture_normal := Some normal; capture_caption := Some captioned |})
    /\ captioned
       = exported (capture_exif_data (options w)) (caption_canvas both_job Sim.layer)
    /\ is_caption_composited (capture_exif_data (options w)) = false
    /\ Sim.occurs
         (Buffer_from_ucs2 ([34] ++ lit "is_caption_composited" ++ [34] ++ lit ":false"))
         (blob_bytes captioned) = true
    /\ Sim.occurs
         (Buffer_from_ucs2 ([34] ++ lit "is_caption_composited" ++ [34] ++ lit ":true"))
         (blob_bytes captioned) = false.
Proof.
  rewrite composite_run. eexists _, _, _. split; [reflexivity|].
  repeat split; vm_compute; reflexivity.
Qed.

(** C4 as stated fails: on [both_job] a captioned output is produced and the
    direct method runs all the same. *)
Lemma C4_direct_alongside_caption :
  exists w normal captioned,
    composite [] both_job
      = (w, inr {| capture_normal := Some normal; capture_caption := Some captioned |})
    /\ direct_path_ran w.
Proof.
  rewrite composite_run. eexists _, _, _. split; [reflexivity|].
  unfold direct_path_ran. cbn. auto 10.
Qed.

(** C7 as stated fails: the block of an output has no orientation tag (what
    it has next to the resolution unit is YCbCr positioning). *)
Lemma C7_no_orientation :
  exists w normal,
    composite [] plain_job
      = (w, inr {| capture_normal := Some normal; capture_caption := None |})
    /\ normal = exported (capture_exif_data (options w)) (direct_canvas plain_job)
    /\ zeroth (exif_of (capture_exif_data (options w))) !! TagValues.ImageIFD.Orientation
       = None
    /\ zeroth (exif_of (capture_exif_data (options w))) !! TagValues.ImageIFD.YCbCrPositioning
       = Some (ENum 1).
Proof.
  rewrite composite_run. eexists _, _. split; [reflexivity|].
  repeat split; vm_compute; reflexivity.
Qed.

(** A comment at the origin of a container of the canvas's own size is drawn
    at the origin, at its own font size. *)
Example comment_at_origin :
  let data := {| container_width := 2%float; container_height := 1%float;
                 opacity := 1%float;
                 comments := [Comment.mk 0%float 0%float (lit "#ff0000") 24%float (lit "w")] |} in
  let w := new_CaptureCompositor (Sim.job VideoOnly None None (Some data)) in
  snd (compositeComments (new_OffscreenCanvas 2 1 Ctx2D false) w)
  = inr {| width := 2; height := 1; kind := Ctx2D; alpha := false;
           state := default_state;
           ops :=
             [DrawImage default_state
                (Layer 2 1 true
                   [FillText
                      {| fillStyle := lit "#ff0000";
                         font := lit "bold 24px 'Open Sans','Hiragino Sans','Noto Sans JP',sans-serif";
                         textBaseline := lit "top";
                         shadowOffsetX := 1.2%float;
                         shadowOffsetY := 1.2%float;
                         shadowBlur := 4%float;
                         shadowColor := lit "rgba(0, 0, 0, 0.9)";
                         globalAlpha := 1%float |}
                      (lit "w") 0%float 0%float])
                0 0 2 1] |}.
Proof. vm_compute. reflexivity. Qed.

(** With opacity 0 the full method hands the encoder the pixels it hands it
    without comments at all; the EXIF record still says that comments were
    composited. *)
Example faint_job_pixels :
  match async compositeInNormalMode (new_CaptureCompositor faint_job),
        async compositeInNormalMode
          (new_CaptureCompositor (Sim.job VideoOnly None (Some Sim.layer) None)) with
  | (w, Pending_convertToBlob faint), (_, Pending_convertToBlob without) =>
      rasterize faint = rasterize without
      /\ is_comment_composited (capture_exif_data (options w)) = true
  | _, _ => False
  end.
Proof. vm_compute. split; reflexivity. Qed.

(** Called after the direct method, the caption method could not draw the
    capture: the order of the two calls in [composite] is what keeps a run in
    mode Both from being rejected. *)
Example caption_after_direct :
  let '(w, _) := async compositeInNormalDirectMode (new_CaptureCompositor both_job) in
  snd (async compositeInCaptionMode w) = Rejected InvalidStateError.
Proof. vm_compute. reflexivity. Qed.

(** *** The theorems applied *)


Lemma C4_direct_selection_witness :
  let w := composite_world both_job in
  let res := composite_result both_job in
  composite [Captioned] both_job = (w, inr res)
  /\ (direct_path_ran w <->
        ((mode both_job = VideoOnly \/ mode both_job = Both)
         \/ (mode both_job = CompositingCaption /\ caption both_job = None))
        /\ superimpose both_job = None /\ capture_comment_data both_job = None).
Proof.
  cbv zeta.
  assert (Hrun : composite [Captioned] both_job
                 = (composite_world both_job, inr (composite_result both_job)))
    by (vm_compute; reflexivity).
  split; [exact Hrun|].
  exact (proj1 (C4_direct_selection _ _ _ _ Hrun)).
Defined.

(** The comment of [Sim.comment_data] was laid out in a 1x1 container; on the
    2x1 canvas its position, font size and shadow are scaled by the width
    ratio 2, its vertical position by the height ratio 1. *)
Lemma C5_comment_rendering_witness :
  let w := new_CaptureCompositor full_job in
  let canvas := frame_canvas full_job in
  capture_comment_data (options w) = Some (Sim.comment_data 0.5%float)
  /\ exists canvas' st,
       compositeComments canvas w = (w, inr canvas')
       /\ ops canvas' = ops canvas ++
            [DrawImage st
               (Layer 2 1 true
                  [FillText
                     {| fillStyle := lit "#ffffff";
                        font := lit "bold 32px 'Open Sans','Hiragino Sans','Noto Sans JP',sans-serif";
                        textBaseline := lit "top";
                        shadowOffsetX := 2.4%float;
                        shadowOffsetY := 2.4%float;
                        shadowBlur := 8%float;
                        shadowColor := lit "rgba(0, 0, 0, 0.9)";
                        globalAlpha := 1%float |}
                     (lit "www") 2%float 0%float])
               0 0 2 1].
Proof.
  cbv zeta. split; [reflexivity|].
  exact (C5_comment_rendering (new_CaptureCompositor full_job)
           (Sim.comment_data 0.5%float) (frame_canvas full_job) eq_refl).
Defined.

Lemma C6_comment_opacity_witness :
  let w := new_CaptureCompositor faint_job in
  let canvas := add_superimpose faint_job (frame_canvas faint_job) in
  capture_comment_data (options w) = Some (Sim.comment_data 0%float)
  /\ exists canvas',
       compositeComments canvas w = (w, inr canvas')
       /\ rasterize canvas' = rasterize canvas.
Proof.
  cbv zeta. split; [reflexivity|].
  destruct (C6_comment_opacity (new_CaptureCompositor faint_job)
              (Sim.comment_data 0%float)
              (add_superimpose faint_job (frame_canvas faint_job)) eq_refl)
    as (canvas' & layer_ops & Hrun & _ & _ & _ & Hzero & _).
  exists canvas'. split; [exact Hrun|]. apply Hzero. reflexivity.
Defined.

Lemma C7_exif_block_witness :
  let w := composite_world full_job in
  let res := composite_result full_job in
  let b := exported (capture_exif_data (options w)) (normal_canvas full_job) in
  composite [] full_job = (w, inr res)
  /\ capture_normal res = Some b
  /\ exists canvas,
       blob_bytes b
       = map (fun c => Z.land c 255)
           (piexif_insert (piexif_dump (exif_of (capture_exif_data (options w))))
              (blob_bytes (convertToBlob canvas (lit "image/jpeg") 0.99%float)))
       /\ zeroth (exif_of (capture_exif_data (options w))) !! TagValues.ImageIFD.DateTime
          = Some (EStr (lit "2023:04:05 12:34:56"))
       /\ Exif (exif_of (capture_exif_data (options w))) !! TagValues.ExifIFD.DateTimeOriginal
          = Some (EStr (lit "2023:04:05 12:34:56")).
Proof.
  cbv zeta.
  assert (Hrun : composite [] full_job
                 = (composite_world full_job, inr (composite_result full_job)))
    by (vm_compute; reflexivity).
  assert (Hb : capture_normal (composite_result full_job)
               = Some (exported (capture_exif_data (options (composite_world full_job)))
                         (normal_canvas full_job)))
    by (vm_compute; reflexivity).
  split; [exact Hrun|]. split; [exact Hb|].
  destruct (C7_exif_block _ _ _ _ _ Hrun (or_introl Hb))
    as (canvas & Hbytes & _ & _ & _ & _ & _ & Hdt & _ & _ & _ & _ & _ & _ & Hdo & _).
  exists canvas. split; [exact Hbytes|].
  rewrite Hdt, Hdo. split; vm_compute; reflexivity.
Defined.

Lemma C8_direct_equals_full_witness :
  let w := new_CaptureCompositor plain_job in
  capture_detached w = false
  /\ superimpose (options w) = None
  /\ capture_comment_data (options w) = None
  /\ exists blob,
       (let '(w1, p1) := async compositeInNormalDirectMode w in await w1 p1) = inr blob
       /\ (let '(w2, p2) := async compositeInNormalMode w in await w2 p2) = inr blob.
Proof.
  cbv zeta. repeat (split; [reflexivity|]).
  destruct (C8_direct_equals_full (new_CaptureCompositor plain_job) eq_refl eq_refl eq_refl)
    as (w1 & w2 & canvas1 & canvas2 & blob & H1 & H2 & _ & Ha1 & Ha2).
  exists blob. rewrite H1, H2. split; assumption.
Defined.

Lemma C9_frame_consumption_witness :
  let w := composite_world both_job in
  let r := inr (composite_result both_job) in
  composite [Captioned; Normal; Normal] both_job = (w, r)
  /\ (exists res, r = inr res)
  /\ (length (transfers (accesses w)) <= 1)%nat
  /\ (forall pre p post,
        accesses w = pre ++ (p, Transfer) :: post ->
        p = NormalDirectMode /\ post = [(NormalDirectMode, Close)]).
Proof.
  cbv zeta.
  assert (Hrun : composite [Captioned; Normal; Normal] both_job
                 = (composite_world both_job, inr (composite_result both_job)))
    by (vm_compute; reflexivity).
  split; [exact Hrun|].
  exact (C9_frame_consumption _ _ _ _ Hrun).
Defined.


(** *** The further properties applied *)

Lemma compositeInNormalDirectMode_precondition_witness :
  let w := new_CaptureCompositor full_job in
  (superimpose (options w) <> None \/ capture_comment_data (options w) <> None)
  /\ async compositeInNormalDirectMode w = (w, Rejected AssertionError).
Proof.
  cbv zeta.
  assert (Hp : superimpose (options (new_CaptureCompositor full_job)) <> None
               \/ capture_comment_data (options (new_CaptureCompositor full_job)) <> None)
    by (left; discriminate).
  split; [exact Hp|].
  exact (compositeInNormalDirectMode_precondition _ Hp).
Defined.

Lemma caption_method_asserts_witness :
  let w := new_CaptureCompositor plain_job in
  caption (options w) = None
  /\ async compositeInCaptionMode w = (w, Rejected AssertionError).
Proof.
  cbv zeta. split; [reflexivity|].
  exact (caption_method_asserts (new_CaptureCompositor plain_job) eq_refl).
Defined.

Lemma compositeComments_asserts_witness :
  let w := new_CaptureCompositor plain_job in
  capture_comment_data (options w) = None
  /\ compositeComments (frame_canvas plain_job) w = (w, inl AssertionError).
Proof.
  cbv zeta. split; [reflexivity|].
  exact (compositeComments_asserts (new_CaptureCompositor plain_job)
           (frame_canvas plain_job) eq_refl).
Defined.

(** The worker of [both_job] after its run: the capture is detached. *)
Lemma full_methods_reject_detached_witness :
  let w := composite_world both_job in
  capture_detached w = true
  /\ snd (async compositeInNormalMode w) = Rejected InvalidStateError
  /\ snd (async compositeInCaptionMode w) = Rejected InvalidStateError.
Proof.
  cbv zeta. split; [reflexivity|].
  destruct (full_methods_reject_detached (composite_world both_job) eq_refl) as (Hn & Hc).
  rewrite Hn, (Hc Sim.layer eq_refl). split; reflexivity.
Defined.

Lemma direct_method_must_run_last_witness :
  let w := new_CaptureCompositor both_job in
  capture_detached w = false
  /\ caption (options w) = Some Sim.layer
  /\ superimpose (options w) = None
  /\ capture_comment_data (options w) = None
  /\ snd (async compositeInCaptionMode (fst (async compositeInNormalDirectMode w)))
     = Rejected InvalidStateError.
Proof.
  cbv zeta. repeat (split; [reflexivity|]).
  exact (proj1 (proj2 (direct_method_must_run_last (new_CaptureCompositor both_job)
                         Sim.layer eq_refl eq_refl eq_refl eq_refl))).
Defined.

Lemma caption_canvas_layers_witness :
  let w := new_CaptureCompositor full_job in
  capture_detached w = false
  /\ caption (options w) = Some Sim.layer
  /\ exists canvas,
       snd (async compositeInCaptionMode w) = Pending_convertToBlob canvas
       /\ ops canvas
          = [DrawImage default_state (Bitmap Sim.frame) 0 0 2 1;
             DrawImage default_state (Bitmap Sim.layer) 0 0 2 1;
             DrawImage default_state (Bitmap Sim.layer) 0 0 2 1;
             DrawImage (set_globalAlpha 0.5%float default_state)
               (comment_layer (Sim.comment_data 0.5%float) 2 1) 0 0 2 1].
Proof.
  cbv zeta. repeat (split; [reflexivity|]).
  destruct (caption_canvas_layers (new_CaptureCompositor full_job) Sim.layer eq_refl eq_refl)
    as (canvas & Hp & _ & _ & _ & _ & Hops).
  exists canvas. split; [exact Hp | exact Hops].
Defined.

Lemma normal_canvas_layers_witness :
  let w := new_CaptureCompositor faint_job in
  capture_detached w = false
  /\ exists canvas,
       snd (async compositeInNormalMode w) = Pending_convertToBlob canvas
       /\ ops canvas
          = [DrawImage default_state (Bitmap Sim.frame) 0 0 2 1;
             DrawImage default_state (Bitmap Sim.layer) 0 0 2 1;
             DrawImage (set_globalAlpha 0%float default_state)
               (comment_layer (Sim.comment_data 0%float) 2 1) 0 0 2 1].
Proof.
  cbv zeta. split; [reflexivity|].
  destruct (normal_canvas_layers (new_CaptureCompositor faint_job) eq_refl)
    as (canvas & Hp & _ & _ & _ & _ & Hops).
  exists canvas. split; [exact Hp | exact Hops].
Defined.

Lemma direct_canvas_transfer_witness :
  let w := new_CaptureCompositor plain_job in
  capture_detached w = false
  /\ superimpose (options w) = None
  /\ capture_comment_data (options w) = None
  /\ exists w' canvas,
       async compositeInNormalDirectMode w = (w', Pending_convertToBlob canvas)
       /\ ops canvas = [TransferFromImageBitmap Sim.frame]
       /\ capture_detached w' = true.
Proof.
  cbv zeta. repeat (split; [reflexivity|]).
  destruct (direct_canvas_transfer (new_CaptureCompositor plain_job) eq_refl eq_refl eq_refl)
    as (w' & canvas & Hrun & _ & _ & _ & _ & Hops & _ & _ & Hdet & _).
  exists w', canvas. auto.
Defined.

Lemma compositeComments_frame_witness :
  let w := new_CaptureCompositor full_job in
  capture_comment_data (options w) = Some (Sim.comment_data 0.5%float)
  /\ exists canvas' op,
       compositeComments (frame_canvas full_job) w = (w, inr canvas')
       /\ ops canvas' = ops (frame_canvas full_job) ++ [op]
       /\ globalAlpha (state canvas') = 0.5%float.
Proof.
  cbv zeta. split; [reflexivity|].
  destruct (compositeComments_frame (new_CaptureCompositor full_job)
              (Sim.comment_data 0.5%float) (frame_canvas full_job) eq_refl)
    as (canvas' & op & Hrun & Hops & _ & _ & _ & _ & Ha & _).
  exists canvas', op. auto.
Defined.

Lemma second_call_after_direct_witness :
  let w := composite_world plain_job in
  let r := inr (composite_result plain_job) in
  composite [] plain_job = (w, r)
  /\ direct_path_ran w
  /\ snd (composite_from [Normal] w) = inl InvalidStateError.
Proof.
  cbv zeta.
  assert (Hrun : composite [] plain_job
                 = (composite_world plain_job, inr (composite_result plain_job)))
    by (vm_compute; reflexivity).
  assert (Hran : direct_path_ran (composite_world plain_job))
    by (unfold direct_path_ran; simpl; auto).
  split; [exact Hrun|]. split; [exact Hran|].
  exact (second_call_after_direct _ _ _ _ _ Hrun Hran).
Defined.

Lemma second_call_without_direct_witness :
  let w := composite_world full_job in
  let r := inr (composite_result full_job) in
  composite [] full_job = (w, r)
  /\ ~ direct_path_ran w
  /\ capture_detached w = false
  /\ snd (composite_from [Captioned; Normal] w) = r.
Proof.
  cbv zeta.
  assert (Hrun : composite [] full_job
                 = (composite_world full_job, inr (composite_result full_job)))
    by (vm_compute; reflexivity).
  assert (Hran : ~ direct_path_ran (composite_world full_job))
    by (unfold direct_path_ran; simpl; intuition discriminate).
  split; [exact Hrun|]. split; [exact Hran|].
  destruct (second_call_without_direct [] [Captioned; Normal] _ _ _ Hrun Hran)
    as (Hlive & _ & Hsame).
  split; assumption.
Defined.

Lemma caption_flag_by_mode_witness :
  let job := Sim.job CompositingCaption (Some Sim.layer) None None in
  let w := composite_world job in
  let b := exported (capture_exif_data (options w)) (caption_canvas job Sim.layer) in
  composite [] job = (w, inr {| capture_normal := None; capture_caption := Some b |})
  /\ embeds b (capture_exif_data (options w))
  /\ is_caption_composited (capture_exif_data (options w)) = true.
Proof.
  cbv zeta.
  assert (Hrun : composite [] (Sim.job CompositingCaption (Some Sim.layer) None None)
                 = (composite_world (Sim.job CompositingCaption (Some Sim.layer) None None),
                    inr {| capture_normal := None;
                           capture_caption :=
                             Some (exported
                                     (capture_exif_data
                                        (options (composite_world
                                           (Sim.job CompositingCaption (Some Sim.layer) None None))))
                                     (caption_canvas
                                        (Sim.job CompositingCaption (Some Sim.layer) None None)
                                        Sim.layer)) |}))
    by (vm_compute; reflexivity).
  split; [exact Hrun|].
  destruct (proj1 (caption_flag_by_mode _ _ _ _ Hrun) _ eq_refl) as (Hemb & Hflag).
  split; [exact Hemb | apply Hflag; reflexivity].
Defined.

Lemma outputs_are_jpeg_bytes_witness :
  let w := composite_world full_job in
  let res := composite_result full_job in
  let b := exported (capture_exif_data (options w)) (normal_canvas full_job) in
  composite [] full_job = (w, inr res)
  /\ capture_normal res = Some b
  /\ blob_type b = lit "image/jpeg"
  /\ Forall (fun x => 0 <= x < 256) (blob_bytes b).
Proof.
  cbv zeta.
  assert (Hrun : composite [] full_job
                 = (composite_world full_job, inr (composite_result full_job)))
    by (vm_compute; reflexivity).
  assert (Hb : capture_normal (composite_result full_job)
               = Some (exported (capture_exif_data (options (composite_world full_job)))
                         (normal_canvas full_job)))
    by (vm_compute; reflexivity).
  split; [exact Hrun|]. split; [exact Hb|].
  exact (outputs_are_jpeg_bytes _ _ _ _ _ Hrun (or_introl Hb)).
Defined.

Lemma spliced_string_is_kept_witness :
  let exif_string := setEXIFDataToCapture_dump Sim.exif_data in
  let blob := convertToBlob (frame_canvas plain_job) (lit "image/jpeg") 0.99%float in
  Forall (fun c => 0 <= c < 256) (piexif_insert exif_string (blob_bytes blob))
  /\ blob_bytes (setEXIFDataToCapture_insert exif_string blob)
     = piexif_insert exif_string (blob_bytes blob).
Proof.
  cbv zeta.
  assert (Hbytes : Forall (fun c => 0 <= c < 256)
                     (piexif_insert (setEXIFDataToCapture_dump Sim.exif_data)
                        (blob_bytes (convertToBlob (frame_canvas plain_job)
                                       (lit "image/jpeg") 0.99%float))))
    by (apply (bool_decide_unpack _); vm_compute; exact I).
  split; [exact Hbytes|].
  exact (proj1 (spliced_string_is_kept _ _ Hbytes)).
Defined.

Lemma XPComment_round_trip_witness :
  Forall (fun c => 0 <= c < 65536) (JSON_stringify Sim.exif_data)
  /\ exists bytes,
       zeroth (exif_of Sim.exif_data) !! TagValues.ImageIFD.XPComment = Some (EArr bytes)
       /\ ucs2_decode bytes = JSON_stringify Sim.exif_data.
Proof.
  assert (Hunits : Forall (fun c => 0 <= c < 65536) (JSON_stringify Sim.exif_data))
    by (apply (bool_decide_unpack _); vm_compute; exact I).
  split; [exact Hunits|].
  destruct (XPComment_round_trip Sim.exif_data Hunits) as (bytes & Hlook & Hdec & _).
  exists bytes. split; assumption.
Defined.
